(** * dbd: the component image builder

    A shallow embedding of [src/base_image_builder.py] (class
    [BaseImageBuilder]) and of the build stages exercised by
    [dbd/test/test_default_component_builder.py].

    Python strings are [string]s, [built_config.components] is a
    [gmap string ComponentConfig], the builder object is a record that is
    threaded through every method (its [_dependencies] list is mutated in
    place by [list.sort]), exceptions are a result type, and every call
    that leaves the process (printing, wget, tarfile, docker, the scratch
    directory handler) is recorded as an event. *)

From Stdlib Require Import Ascii String.
From stdpp Require Import gmap strings list sorting.

(** ** Python built-ins used by the source *)

Module Py.

(** [s.split(sep)] for a one-character separator: the pieces between
    the separators, never the empty list. *)
Fixpoint split (sep : ascii) (s : string) : list string :=
  match s with
  | "" => [""]
  | String a s' =>
      if decide (a = sep) then "" :: split sep s'
      else match split sep s' with
           | [] => [String a ""]
           | w :: ws => String a w :: ws
           end
  end.

(** [sep.join(l)]. *)
Fixpoint join (sep : string) (l : list string) : string :=
  match l with
  | [] => ""
  | [x] => x
  | x :: xs => x +:+ sep +:+ join sep xs
  end.

(** [l.sort()] on a list of [str]: ascending for the code-point order.
    The order is total and antisymmetric, so the result is the one
    sorted arrangement of the elements whatever the algorithm. *)
Definition sort (l : list string) : list string := merge_sort String.le l.

(** Does the character occur in the string? *)
Fixpoint contains (c : ascii) (s : string) : bool :=
  match s with
  | "" => false
  | String a s' => if decide (a = c) then true else contains c s'
  end.

End Py.

(** ** Data model *)

(** Modelled from the spec: [DistType] of the module [component_builder],
    which the source imports: the enumeration RELEASE, SNAPSHOT. *)
Inductive DistType := RELEASE | SNAPSHOT.

Global Instance DistType_eq_dec : EqDecision DistType.
Proof. solve_decision. Defined.

(** Modelled from the spec: [ComponentConfig] of [component_builder],
    built by the source as [ComponentConfig(dist_type, version, image_name)]. *)
Record ComponentConfig := mkComponentConfig {
  dist_type : DistType;
  version : string;
  image_name : string
}.

(** A [pathlib.Path] is kept as the string it is made from. *)
Definition Path := string.

(** Modelled from the spec: [Configuration] of [component_builder]; the
    source reads [repository], [timestamp], [components] and
    [resource_path]. *)
Record Configuration := mkConfiguration {
  repository : string;
  timestamp : string;
  components : gmap string ComponentConfig;
  resource_path : Path
}.

(** The fields set by [BaseImageBuilder.__init__].  The docker client is
    part of the environment below. *)
Record BaseImageBuilder := mkBaseImageBuilder {
  _name : string;
  _dependencies : list string;
  _url_template : string;
  _version_from_image_name : string -> string
}.

Definition set_dependencies (b : BaseImageBuilder) (l : list string) :=
  {| _name := _name b;
     _dependencies := l;
     _url_template := _url_template b;
     _version_from_image_name := _version_from_image_name b |}.

Inductive Exn :=
| ValueError (msg : string)
| RuntimeError (msg : string)
| KeyError (key : string)
| IndexError
| CollaboratorError (what : string).

Inductive result (A : Type) :=
| Ok (a : A)
| Raise (e : Exn).
Arguments Ok {A} a.
Arguments Raise {A} e.

(** What leaves the process during a call. *)
Inductive Event :=
| EvPrint (msg : string)
| EvImageExists (image : string)
| EvTmpDirEnter (dir : Path)
| EvTmpDirExit (dir : Path)
| EvWgetDownload (url : string) (out : string)
| EvTarAdd (tar : Path) (src : string) (arcname : string)
| EvDockerBuild (path : string) (tag : string).

(** The modules the source imports and that are not part of it:
    [utils], [pathlib], [wget], [tarfile] and the docker client.  With
    them comes [str.format] on the URL template, a string of the caller:
    the field grammar of Python is not modelled, [str_format template
    version] is what [template.format(version)] returns or raises
    (an [IndexError] for a field [{1}], say). *)
Record Externals := mkExternals {
  dist_type_and_arg : gmap string string -> result (DistType * string);
  image_exists_locally : string -> bool;
  str_format : string -> string -> result string;
  tmp_dir_enter : Path -> result Path;
  path_of_string : string -> Path;
  joinpath : Path -> string -> Path;
  expanduser : Path -> Path;
  path_name : Path -> string;
  wget_download : string -> string -> result unit;
  tarfile_add : Path -> string -> string -> result unit;
  docker_images_build : string -> string -> result unit
}.

(** ** The method monad: the builder object, the events so far, and a
    value or an exception *)

Record St := mkSt {
  self : BaseImageBuilder;
  events : list Event
}.

Definition M (A : Type) : Type := St -> St * result A.

Definition ret {A} (a : A) : M A := fun s => (s, Ok a).
Definition bind {A B} (m : M A) (f : A -> M B) : M B :=
  fun s => match m s with
           | (s', Ok a) => f a s'
           | (s', Raise e) => (s', Raise e)
           end.
Definition lift {A} (r : result A) : M A := fun s => (s, r).
Definition emit (e : Event) : M unit :=
  fun s => ({| self := self s; events := events s ++ [e] |}, Ok tt).
Definition get_self : M BaseImageBuilder := fun s => (s, Ok (self s)).
Definition put_self (b : BaseImageBuilder) : M unit :=
  fun s => ({| self := b; events := events s |}, Ok tt).

(** [with handler as x: body]: the exit handler runs whether the body
    returns or raises, and an exception of the body goes on. *)
Definition with_handler {A B} (enter : M A) (exit_ : A -> M unit)
    (body : A -> M B) : M B :=
  fun s => match enter s with
           | (s1, Raise e) => (s1, Raise e)
           | (s1, Ok x) =>
               match body x s1 with
               | (s2, Ok b) =>
                   match exit_ x s2 with
                   | (s3, Ok _) => (s3, Ok b)
                   | (s3, Raise e) => (s3, Raise e)
                   end
               | (s2, Raise e) => (fst (exit_ x s2), Raise e)
               end
           end.

Declare Scope py_scope.
Delimit Scope py_scope with py.
Notation "'let*' x ':=' m 'in' k" := (bind m (fun x => k))
  (at level 10, x pattern, m at level 100, k at level 200) : py_scope.
Local Open Scope py_scope.

(** ** [BaseImageBuilder] *)

Section Builder.

Variable ext : Externals.

Definition name : M string := let* b := get_self in ret (_name b).

(** [dependencies()] hands out the list object itself, so what the
    caller does to it is done to [self._dependencies]. *)
Definition dependencies : M (list string) :=
  let* b := get_self in ret (_dependencies b).

(** [dependencies.sort()] on that list object. *)
Definition dependencies_sort : M unit :=
  let* b := get_self in
  put_self (set_dependencies b (Py.sort (_dependencies b))).

(** Lines 94-102: the component tag.  The enumeration has two values,
    so the last [else] of the source, for any other value, has no case. *)
Definition component_tag (dt : DistType) (version : option string)
    (built_config : Configuration) : result string :=
  match dt with
  | RELEASE =>
      match version with
      | None => Raise (ValueError "The version is None but release mode is specified.")
      | Some v => Ok v
      end
  | SNAPSHOT => Ok ("snapshot_" +:+ timestamp built_config)
  end.

(** Line 110: [built_config.components[dependency].image_name.split(":")[-1]]. *)
Definition dependency_tag (built_config : Configuration) (dependency : string)
    : result string :=
  match components built_config !! dependency with
  | None => Raise (KeyError dependency)
  | Some cc =>
      match last (Py.split ":" (image_name cc)) with
      | None => Raise IndexError
      | Some t => Ok t
      end
  end.

(** Lines 108-111: the loop that fills [deps_join_list]. *)
Fixpoint deps_join_loop (built_config : Configuration)
    (deps : list string) (deps_join_list : list string) : result (list string) :=
  match deps with
  | [] => Ok deps_join_list
  | dependency :: rest =>
      match dependency_tag built_config dependency with
      | Raise e => Raise e
      | Ok t => deps_join_loop built_config rest
                  (deps_join_list ++ [dependency +:+ t])
      end
  end.

(** The template of line 92 filled in. *)
Definition format_template (repo component ctag dtag : string) : string :=
  repo +:+ "/" +:+ component +:+ ":" +:+ ctag +:+ "_" +:+ dtag.

Definition _get_image_name (dt : DistType) (version : option string)
    (built_config : Configuration) : M string :=
  let* ctag := lift (component_tag dt version built_config) in
  let* _ := dependencies_sort in
  let* deps := dependencies in
  let* deps_join_list := lift (deps_join_loop built_config deps []) in
  let dependencies_tag := Py.join "_" deps_join_list in
  let* n := name in
  ret (format_template (repository built_config) n ctag dependencies_tag).

Definition _get_resource_dir (global_resource_path : Path) : M Path :=
  let* n := name in ret (joinpath ext global_resource_path n).

Definition _prepare_tarfile_release (version : string) (tmp_dir : Path)
    : M unit :=
  let* b := get_self in
  let* url := lift (str_format ext (_url_template b) version) in
  let* n := name in
  let* _ := emit (EvPrint ("Downloading " +:+ n +:+ " release version " +:+ version
                     +:+ " from " +:+ url +:+ ".")) in
  let* n' := name in
  let out_path := joinpath ext tmp_dir (n' +:+ ".tar.gz") in
  let out := expanduser ext out_path in
  let* _ := emit (EvWgetDownload url out) in
  let* _ := lift (wget_download ext url out) in
  emit (EvPrint "").

Definition _prepare_tarfile_snapshot (path : Path) (tmp_dir : Path)
    : M unit :=
  let* n := name in
  let* _ := emit (EvPrint ("Preparing " +:+ n +:+ " snapshot version from path "
                     +:+ path +:+ ".")) in
  let* n' := name in
  let tar := joinpath ext tmp_dir (n' +:+ ".tar.gz") in
  let src := expanduser ext path in
  let* _ := emit (EvTarAdd tar src (path_name ext path)) in
  lift (tarfile_add ext tar src (path_name ext path)).

Definition _build_docker_image (image : string) (dockerfile_path : Path)
    : M unit :=
  let* _ := emit (EvPrint ("Building docker image " +:+ image +:+ ".")) in
  let* _ := emit (EvDockerBuild dockerfile_path image) in
  lift (docker_images_build ext dockerfile_path image).

(** [utils.TmpDirHandler(dir)] as a context manager. *)
Definition TmpDirHandler {B} (dir : Path) (body : Path -> M B) : M B :=
  with_handler
    (let* _ := emit (EvTmpDirEnter dir) in lift (tmp_dir_enter ext dir))
    (fun _ => emit (EvTmpDirExit dir))
    body.

(** Lines 40-42.  [and] does not evaluate its right operand when the
    left one is false, so the existence check is only made for a
    RELEASE that is not forced. *)
Definition reuse_existing_image (force_rebuild : bool) (dt : DistType)
    (image : string) : M bool :=
  if negb force_rebuild then
    if decide (dt = RELEASE) then
      let* _ := emit (EvImageExists image) in
      ret (image_exists_locally ext image)
    else ret false
  else ret false.

(** Lines 47-57: the [else] branch of [build].  For a SNAPSHOT the
    argument goes through [Path(argument)] (line 52) before it is printed
    and packed. *)
Definition rebuild (dt : DistType) (argument : string) (image : string)
    (built_config : Configuration) : M unit :=
  let* dir := _get_resource_dir (resource_path built_config) in
  TmpDirHandler dir (fun tmp_dir =>
    let* _ := match dt with
              | RELEASE => _prepare_tarfile_release argument tmp_dir
              | SNAPSHOT =>
                  _prepare_tarfile_snapshot (path_of_string ext argument)
                                            tmp_dir
              end in
    let* dir' := _get_resource_dir (resource_path built_config) in
    _build_docker_image image dir').

(** The scratch directory of a rebuild. *)
Definition scratch_dir (bc : Configuration) (b : BaseImageBuilder) : Path :=
  joinpath ext (resource_path bc) (_name b).

(** The version argument [build] passes to [_get_image_name]. *)
Definition version_argument (dt : DistType) (arg : string) : option string :=
  if decide (dt = RELEASE) then Some arg else None.

(** The component tag of a request. *)
Definition tag_of_request (dt : DistType) (arg : string)
    (bc : Configuration) : string :=
  match dt with
  | RELEASE => arg
  | SNAPSHOT => "snapshot_" +:+ timestamp bc
  end.

(** Line 45: the [if] branch of [build]. *)
Definition print_reusing (image : string) : M unit :=
  let* n := name in
  emit (EvPrint ("Reusing existing " +:+ n +:+ " image: " +:+ image +:+ ".")).

Definition build (component_config : gmap string string)
    (built_config : Configuration) (force_rebuild : bool)
    : M ComponentConfig :=
  let* (dt, argument) := lift (dist_type_and_arg ext component_config) in
  let* image := _get_image_name dt (version_argument dt argument)
                                built_config in
  let* reuse := reuse_existing_image force_rebuild dt image in
  let* _ := (if reuse : bool then print_reusing image
             else rebuild dt argument image built_config) in
  match dt with
  | RELEASE => ret (mkComponentConfig dt argument image)
  | SNAPSHOT =>
      let* b := get_self in
      ret (mkComponentConfig dt (_version_from_image_name b image) image)
  end.

(** ** Observing a call *)

(** Events of the rebuild branch. *)
Definition is_build_effect (e : Event) : bool :=
  match e with
  | EvTmpDirEnter _ | EvTmpDirExit _ | EvWgetDownload _ _
  | EvTarAdd _ _ _ | EvDockerBuild _ _ => true
  | EvPrint _ | EvImageExists _ => false
  end.

(** The reuse path: the message of line 45 is printed and nothing of
    the rebuild branch happens. *)
Definition reused (b : BaseImageBuilder) (image : string)
    (tr : list Event) : Prop :=
  EvPrint ("Reusing existing " +:+ _name b +:+ " image: " +:+ image +:+ ".") ∈ tr
  /\ Forall (fun e => is_build_effect e = false) tr.

(** The rebuild path: the scratch directory handler is entered. *)
Definition rebuilt (bc : Configuration) (b : BaseImageBuilder)
    (tr : list Event) : Prop :=
  EvTmpDirEnter (scratch_dir bc b) ∈ tr.

Definition reuse_condition (force : bool) (dt : DistType)
    (image : string) : Prop :=
  force = false /\ dt = RELEASE /\ image_exists_locally ext image = true.

End Builder.

(** Running a method on a builder, from an empty event log. *)
Definition builder_after {A} (m : M A) (b : BaseImageBuilder)
    : BaseImageBuilder :=
  self (fst (m (mkSt b []))).
Definition trace_of {A} (m : M A) (b : BaseImageBuilder) : list Event :=
  events (fst (m (mkSt b []))).
Definition outcome {A} (m : M A) (b : BaseImageBuilder) : result A :=
  snd (m (mkSt b [])).

(** ** What a call depends on, in closed form

    The definitions below are not methods of the source: they name the
    arguments the source hands to its collaborators and the events a
    rebuild leaves, so that the methods above can be compared with them. *)

(** [image_name.split(":")[-1]] of line 110, as a function of the image. *)
Definition tag_suffix (image : string) : string :=
  default "" (last (Py.split ":" image)).

(** What the loop of lines 109-111 appends for a dependency. *)
Definition dependency_entry (bc : Configuration) (d : string) : string :=
  d +:+ match components bc !! d with
        | Some cc => tag_suffix (image_name cc)
        | None => ""
        end.

(** The suffix the loop finds for a name, empty when the lookup fails. *)
Definition suffix_of (bc : Configuration) (d : string) : string :=
  match dependency_tag bc d with Ok t => t | Raise _ => "" end.

(** The [ComponentConfig] that [build] returns (lines 59-65). *)
Definition returned_config (b : BaseImageBuilder) (dt : DistType)
    (arg image : string) : ComponentConfig :=
  mkComponentConfig dt
    match dt with
    | RELEASE => arg
    | SNAPSHOT => _version_from_image_name b image
    end image.

Definition is_handler_event (e : Event) : bool :=
  match e with EvTmpDirEnter _ | EvTmpDirExit _ => true | _ => false end.

(** Line 68: the URL of a release, or the exception of [str.format]. *)
Definition release_url (ext : Externals) (b : BaseImageBuilder)
    (version : string) : result string :=
  str_format ext (_url_template b) version.

(** Lines 71 and 81: the archive in the temporary directory. *)
Definition tarball (ext : Externals) (b : BaseImageBuilder) (tmp_dir : Path)
    : Path :=
  joinpath ext tmp_dir (_name b +:+ ".tar.gz").

(** What the preparation step answers.  For a RELEASE (lines 68-74) the
    URL is formatted first, then [wget.download] is called with it; for
    a SNAPSHOT (lines 52 and 79-82) [tar.add] is called on the path made
    from the argument. *)
Definition prepare_outcome (ext : Externals) (b : BaseImageBuilder)
    (dt : DistType) (arg : string) (tmp_dir : Path) : result unit :=
  match dt with
  | RELEASE =>
      match release_url ext b arg with
      | Raise e => Raise e
      | Ok url => wget_download ext url (expanduser ext (tarball ext b tmp_dir))
      end
  | SNAPSHOT =>
      tarfile_add ext (tarball ext b tmp_dir)
        (expanduser ext (path_of_string ext arg))
        (path_name ext (path_of_string ext arg))
  end.

(** The events of the preparation step: none when the URL cannot be
    formatted, and the empty [print()] of line 74 only after a download
    that succeeded. *)
Definition prepare_events (ext : Externals) (b : BaseImageBuilder)
    (dt : DistType) (arg : string) (tmp_dir : Path) : list Event :=
  match dt with
  | RELEASE =>
      match release_url ext b arg with
      | Raise _ => []
      | Ok url =>
          [EvPrint ("Downloading " +:+ _name b +:+ " release version " +:+ arg
                    +:+ " from " +:+ url +:+ ".");
           EvWgetDownload url (expanduser ext (tarball ext b tmp_dir))]
          ++ match wget_download ext url
                     (expanduser ext (tarball ext b tmp_dir)) with
             | Ok _ => [EvPrint ""]
             | Raise _ => []
             end
      end
  | SNAPSHOT =>
      [EvPrint ("Preparing " +:+ _name b +:+ " snapshot version from path "
                +:+ path_of_string ext arg +:+ ".");
       EvTarAdd (tarball ext b tmp_dir)
         (expanduser ext (path_of_string ext arg))
         (path_name ext (path_of_string ext arg))]
  end.

(** The events of the rebuild branch. *)
Definition rebuild_events (ext : Externals) (b : BaseImageBuilder)
    (bc : Configuration) (dt : DistType) (arg image : string) : list Event :=
  let dir := scratch_dir ext bc b in
  EvTmpDirEnter dir ::
  match tmp_dir_enter ext dir with
  | Raise _ => []
  | Ok tmp_dir =>
      prepare_events ext b dt arg tmp_dir
      ++ match prepare_outcome ext b dt arg tmp_dir with
         | Raise _ => []
         | Ok _ => [EvPrint ("Building docker image " +:+ image +:+ ".");
                    EvDockerBuild dir image]
         end
      ++ [EvTmpDirExit dir]
  end.

(** The result of the rebuild branch. *)
Definition rebuild_outcome (ext : Externals) (b : BaseImageBuilder)
    (bc : Configuration) (dt : DistType) (arg image : string) : result unit :=
  let dir := scratch_dir ext bc b in
  match tmp_dir_enter ext dir with
  | Raise e => Raise e
  | Ok tmp_dir =>
      match prepare_outcome ext b dt arg tmp_dir with
      | Raise e => Raise e
      | Ok _ => docker_images_build ext dir image
      end
  end.

(** The gate in front of the existence check (line 40-41). *)
Definition checks_existence (force : bool) (dt : DistType) : bool :=
  negb force && bool_decide (dt = RELEASE).

Definition is_existence_check (e : Event) : bool :=
  match e with EvImageExists _ => true | _ => false end.

(** Events that only the body of the [with] block produces. *)
Definition is_body_effect (e : Event) : bool :=
  match e with
  | EvWgetDownload _ _ | EvTarAdd _ _ _ | EvDockerBuild _ _ => true
  | _ => false
  end.

(** ** The test double of [TestDownloadFileStage] *)

Module MockDownloader.

(** Lines 158-171 of the test file: the downloader that only records
    the arguments of [download]. *)
Record t := mk {
  _url : option string;
  _dest_path : option Path
}.

(** [__init__]. *)
Definition init : t := {| _url := None; _dest_path := None |}.

Definition download (url : string) (dest_path : Path) (self : t) : t :=
  {| _url := Some url; _dest_path := Some dest_path |}.

Definition get_url (self : t) : option string := _url self.
Definition get_dest_path (self : t) : option Path := _dest_path self.

(** A sequence of calls to [download], in order. *)
Definition downloads (calls : list (string * Path)) (self : t) : t :=
  foldl (fun m call => download call.1 call.2 m) self calls.

End MockDownloader.

(** ** A concrete environment and the scenario of the specification *)

Module Sample.

(** [template.format(version)] on the templates of this module: the
    release template with its field [{0}], the same with the field [{1}],
    for which Python raises [IndexError], and the templates without a
    brace, which [str.format] returns as they are. *)
Definition format_url (template version : string) : result string :=
  if decide (template = "https://example.org/web-{0}.tar.gz") then
    Ok ("https://example.org/web-" +:+ version +:+ ".tar.gz")
  else if decide (template = "https://example.org/web-{1}.tar.gz") then
    Raise IndexError
  else if Py.contains "{" template || Py.contains "}" template then
    Raise (CollaboratorError "a template outside this module")
  else Ok template.

(** Collaborators that always succeed; the dist type is read from the
    one key of the component configuration, no image exists locally, the
    snapshot paths are already in the form [pathlib] gives them. *)
Definition ext : Externals :=
  {| dist_type_and_arg := fun cfg =>
       match cfg !! "release", cfg !! "snapshot" with
       | Some v, None => Ok (RELEASE, v)
       | None, Some p => Ok (SNAPSHOT, p)
       | _, _ => Raise (CollaboratorError "ConfigurationError")
       end;
     image_exists_locally := fun _ => false;
     str_format := format_url;
     tmp_dir_enter := fun d => Ok (d +:+ "/tmp");
     path_of_string := fun p => p;
     joinpath := fun a b => a +:+ "/" +:+ b;
     expanduser := fun p => p;
     path_name := fun p => default "" (last (Py.split "/" p));
     wget_download := fun _ _ => Ok tt;
     tarfile_add := fun _ _ _ => Ok tt;
     docker_images_build := fun _ _ => Ok tt |}.

(** The same environment with the image already present. *)
Definition ext_with_image : Externals :=
  {| dist_type_and_arg := dist_type_and_arg ext;
     image_exists_locally := fun _ => true;
     str_format := str_format ext;
     tmp_dir_enter := tmp_dir_enter ext;
     path_of_string := path_of_string ext;
     joinpath := joinpath ext;
     expanduser := expanduser ext;
     path_name := path_name ext;
     wget_download := wget_download ext;
     tarfile_add := tarfile_add ext;
     docker_images_build := docker_images_build ext |}.

(** [split(":")[-1]] as the version extractor handed to the builder. *)
Definition after_last_colon (image : string) : string :=
  default "" (last (Py.split ":" image)).

Definition web_with (deps : list string) : BaseImageBuilder :=
  {| _name := "web";
     _dependencies := deps;
     _url_template := "https://example.org/web-{0}.tar.gz";
     _version_from_image_name := after_last_colon |}.

Definition web : BaseImageBuilder := web_with ["db"; "cache"].

Definition db_config : ComponentConfig :=
  mkComponentConfig RELEASE "1.0" ".../db:1.0_".
Definition cache_config : ComponentConfig :=
  mkComponentConfig RELEASE "2.0" ".../cache:2.0_".

Definition built (ts : string) (rp : Path) : Configuration :=
  {| repository := "acme";
     timestamp := ts;
     components := <["db" := db_config]> (<["cache" := cache_config]> ∅);
     resource_path := rp |}.

Definition built_config : Configuration := built "1556000000" "/resources".

(** [built_config] before "cache" has been built. *)
Definition built_config_without_cache : Configuration :=
  {| repository := "acme";
     timestamp := "1556000000";
     components := <["db" := db_config]> ∅;
     resource_path := "/resources" |}.

Definition release_3_0 : gmap string string := {[ "release" := "3.0" ]}.
Definition snapshot_web : gmap string string := {[ "snapshot" := "~/src/web" ]}.

End Sample.

(** ** Environments in which a collaborator fails *)

Module Failing.

Definition with_collaborators (enter : Path -> result Path)
    (wget : string -> string -> result unit)
    (tar : Path -> string -> string -> result unit)
    (docker : string -> string -> result unit) : Externals :=
  {| dist_type_and_arg := dist_type_and_arg Sample.ext;
     image_exists_locally := image_exists_locally Sample.ext;
     str_format := str_format Sample.ext;
     tmp_dir_enter := enter;
     path_of_string := path_of_string Sample.ext;
     joinpath := joinpath Sample.ext;
     expanduser := expanduser Sample.ext;
     path_name := path_name Sample.ext;
     wget_download := wget;
     tarfile_add := tar;
     docker_images_build := docker |}.

(** The download fails. *)
Definition download : Externals :=
  with_collaborators (tmp_dir_enter Sample.ext)
    (fun _ _ => Raise (CollaboratorError "HTTPError"))
    (tarfile_add Sample.ext) (docker_images_build Sample.ext).

(** The docker build fails. *)
Definition docker : Externals :=
  with_collaborators (tmp_dir_enter Sample.ext) (wget_download Sample.ext)
    (tarfile_add Sample.ext)
    (fun _ _ => Raise (CollaboratorError "BuildError")).

(** The scratch directory cannot be entered. *)
Definition enter : Externals :=
  with_collaborators (fun _ => Raise (CollaboratorError "OSError"))
    (wget_download Sample.ext) (tarfile_add Sample.ext)
    (docker_images_build Sample.ext).

(** The builder of the scenario with a URL template whose field is
    [{1}]. *)
Definition web_with_field_1 : BaseImageBuilder :=
  {| _name := "web";
     _dependencies := ["db"; "cache"];
     _url_template := "https://example.org/web-{1}.tar.gz";
     _version_from_image_name := Sample.after_last_colon |}.

(** The configuration of the scenario with an image of "db" that has no
    colon. *)
Definition built_config_plain_db : Configuration :=
  {| repository := "acme";
     timestamp := "1556000000";
     components :=
       <["db" := mkComponentConfig RELEASE "1.0" "db-image"]>
         (<["cache" := Sample.cache_config]> ∅);
     resource_path := "/resources" |}.

(** The configuration of the scenario after "cache" has been rebuilt as
    2.1. *)
Definition built_config_cache_2_1 : Configuration :=
  {| repository := "acme";
     timestamp := "1556000000";
     components :=
       <["db" := Sample.db_config]>
         (<["cache" := mkComponentConfig RELEASE "2.1" ".../cache:2.1_"]> ∅);
     resource_path := "/resources" |}.

End Failing.

(** ** The build stages

    The module [default_component_image_builder] and the module [stage]
    are imported by [dbd/test/test_default_component_builder.py] and are
    not among the sources; what follows is taken from the specification
    (section 4.1) and from what the tests set up and assert. *)

Module Stages.

(** A file system: what there is at each path, a path being the list of
    its components from the root. *)
Inductive Node :=
| Directory
| RegularFile (content : string).

Global Instance Node_eq_dec : EqDecision Node.
Proof. solve_decision. Defined.

Definition FsPath := list string.
Definition FS := gmap (list string) Node.

Definition exists_ (fs : FS) (p : FsPath) : bool := bool_decide (is_Some (fs !! p)).
Definition is_dir (fs : FS) (p : FsPath) : bool := bool_decide (fs !! p = Some Directory).

(** [p / name]. *)
Definition child (p : FsPath) (name : string) : FsPath := p ++ [name].

Definition mkdir (fs : FS) (p : FsPath) : FS := <[p := Directory]> fs.
Definition touch (fs : FS) (p : FsPath) : FS := <[p := RegularFile ""]> fs.

Inductive Failure :=
| PreconditionError (stage : string)
| FetchError (url : string)
| BuildError (diagnostics : string)
| FileExistsError (path : FsPath).

Inductive run (A : Type) :=
| Done (a : A)
| Failed (f : Failure).
Arguments Done {A} a.
Arguments Failed {A} f.

(** Modelled from the spec: the Stage contract of section 4.1, a
    read-only precondition and an effectful execution. *)
Record Stage := mkStage {
  stage_name : string;
  check_precondition : FS -> bool;
  execute : FS -> run FS
}.

(** Modelled from the spec: [CreateCacheStage(parent_dir)].  The
    precondition is that [parent_dir] exists and is a directory; the
    execution makes sure that [parent_dir / "cache"] exists, leaving a
    cache directory that is already there as it is.  The specification
    does not say what happens when a regular file has that name; the
    model fails there. *)
Definition CreateCacheStage (parent_dir : FsPath) : Stage :=
  {| stage_name := "CreateCacheStage";
     check_precondition := fun fs => is_dir fs parent_dir;
     execute := fun fs =>
       match fs !! child parent_dir "cache" with
       | Some Directory => Done fs
       | Some (RegularFile _) => Failed (FileExistsError (child parent_dir "cache"))
       | None => Done (mkdir fs (child parent_dir "cache"))
       end |}.

(** The temporary directory of the tests, as the tests prepare it. *)
Definition tmp_dir_path : FsPath := ["tmp"; "test"].
Definition empty_tmp_dir : FS := mkdir (mkdir ∅ ["tmp"]) tmp_dir_path.
Definition tmp_dir_with_cache : FS :=
  touch (mkdir empty_tmp_dir (child tmp_dir_path "cache"))
        (child (child tmp_dir_path "cache") "file").

End Stages.

(** ** Facts about the built-ins *)

Module PyFacts.

Lemma split_nonempty sep s : Py.split sep s <> [].
Proof.
  destruct s as [|a s]; simpl; [discriminate|].
  case_decide; [discriminate|].
  destruct (Py.split sep s); discriminate.
Qed.

Lemma split_no_sep sep s : Py.contains sep s = false -> Py.split sep s = [s].
Proof.
  induction s as [|a s IH]; simpl; [reflexivity|].
  case_decide; [discriminate|].
  intros Hs. rewrite (IH Hs). reflexivity.
Qed.

Lemma split_sep_cons sep s : Py.split sep (String sep s) = "" :: Py.split sep s.
Proof. simpl. case_decide; [reflexivity|congruence]. Qed.

Lemma split_app sep pre suf :
  Py.split sep (pre +:+ String sep suf) = Py.split sep pre ++ Py.split sep suf.
Proof.
  induction pre as [|a pre IH].
  - change ("" +:+ String sep suf) with (String sep suf).
    rewrite split_sep_cons. reflexivity.
  - change (String a pre +:+ String sep suf)
      with (String a (pre +:+ String sep suf)).
    simpl. case_decide.
    + rewrite IH. reflexivity.
    + rewrite IH. pose proof (split_nonempty sep pre) as Hne.
      destruct (Py.split sep pre); [congruence|reflexivity].
Qed.

Lemma last_app_nonempty {A} (l1 l2 : list A) : l2 <> [] -> last (l1 ++ l2) = last l2.
Proof.
  intros Hne. destruct l2 as [|x l2] using rev_ind; [congruence|].
  rewrite app_assoc, !last_snoc. reflexivity.
Qed.

(** [s.split(sep)[-1]] is what follows the last separator. *)
Lemma split_last_suffix sep pre suf :
  Py.contains sep suf = false ->
  last (Py.split sep (pre +:+ String sep suf)) = Some suf.
Proof.
  intros H. rewrite split_app, last_app_nonempty by apply split_nonempty.
  rewrite (split_no_sep _ _ H). reflexivity.
Qed.

Lemma split_last_whole sep s :
  Py.contains sep s = false -> last (Py.split sep s) = Some s.
Proof. intros H. rewrite (split_no_sep _ _ H). reflexivity. Qed.

Lemma split_last_is_Some sep s : is_Some (last (Py.split sep s)).
Proof.
  pose proof (split_nonempty sep s) as Hne.
  destruct (Py.split sep s) as [|x l] using rev_ind; [congruence|].
  rewrite last_snoc. eauto.
Qed.

Lemma sort_Sorted l : Sorted String.le (Py.sort l).
Proof. apply (Sorted_merge_sort String.le). Qed.

Lemma sort_Permutation l : Py.sort l ≡ₚ l.
Proof. apply (merge_sort_Permutation String.le). Qed.

(** The sorted list depends on the elements only, not on their order. *)
Lemma sort_permuted l1 l2 : l1 ≡ₚ l2 -> Py.sort l1 = Py.sort l2.
Proof.
  intros HP. apply (Sorted_unique String.le); try apply sort_Sorted.
  rewrite !sort_Permutation. exact HP.
Qed.

Lemma sort_idempotent l : Py.sort (Py.sort l) = Py.sort l.
Proof. apply sort_permuted, sort_Permutation. Qed.

Lemma sort_elem_of x l : x ∈ Py.sort l <-> x ∈ l.
Proof. rewrite (sort_Permutation l). reflexivity. Qed.

End PyFacts.

(** ** Facts about [BaseImageBuilder] *)

Section BuilderFacts.

Implicit Types (b : BaseImageBuilder) (bc : Configuration) (s : St).

(** [_get_image_name] in one piece: the tag, then the sort of the
    builder's own list, then the loop over the sorted list. *)
Lemma get_image_name_unfold dt v bc s :
  _get_image_name dt v bc s =
  match component_tag dt v bc with
  | Raise e => (s, Raise e)
  | Ok ctag =>
      let sorted := Py.sort (_dependencies (self s)) in
      let s' := mkSt (set_dependencies (self s) sorted) (events s) in
      match deps_join_loop bc sorted [] with
      | Raise e => (s', Raise e)
      | Ok l => (s', Ok (format_template (repository bc) (_name (self s))
                                         ctag (Py.join "_" l)))
      end
  end.
Proof.
  unfold _get_image_name, bind, lift.
  destruct (component_tag dt v bc); [|reflexivity]. simpl.
  destruct (deps_join_loop _ _ _); reflexivity.
Qed.

Lemma dependency_tag_raises bc d e :
  dependency_tag bc d = Raise e ->
  e = KeyError d /\ components bc !! d = None.
Proof.
  unfold dependency_tag. destruct (components bc !! d) as [cc|]; [|by intros [= <-]].
  destruct (PyFacts.split_last_is_Some ":" (image_name cc)) as [t ->]. discriminate.
Qed.

Lemma dependency_tag_present bc d cc :
  components bc !! d = Some cc ->
  exists t, dependency_tag bc d = Ok t /\ last (Py.split ":" (image_name cc)) = Some t.
Proof.
  intros H. unfold dependency_tag. rewrite H.
  destruct (PyFacts.split_last_is_Some ":" (image_name cc)) as [t ->]. eauto.
Qed.

Lemma deps_join_loop_agree bc1 bc2 deps acc :
  (forall d, d ∈ deps -> dependency_tag bc1 d = dependency_tag bc2 d) ->
  deps_join_loop bc1 deps acc = deps_join_loop bc2 deps acc.
Proof.
  revert acc. induction deps as [|d deps IH]; intros acc H; simpl; [reflexivity|].
  rewrite <- (H d) by left.
  destruct (dependency_tag bc1 d); [|reflexivity].
  apply IH. intros d' Hd'. apply H. by right.
Qed.

(** The loop stops at the first name without an entry. *)
Lemma deps_join_loop_missing bc deps acc :
  (exists d, d ∈ deps /\ components bc !! d = None) ->
  exists d, d ∈ deps /\ components bc !! d = None /\
            deps_join_loop bc deps acc = Raise (KeyError d).
Proof.
  revert acc. induction deps as [|d deps IH]; intros acc [d0 [Hin Hnone]].
  - by apply elem_of_nil in Hin.
  - simpl. destruct (dependency_tag bc d) as [t|e] eqn:Ht.
    + assert (Hrest : exists d', d' ∈ deps /\ components bc !! d' = None).
      { apply elem_of_cons in Hin as [->|Hin]; [|by eauto].
        unfold dependency_tag in Ht. rewrite Hnone in Ht. discriminate. }
      destruct (IH (acc ++ [d +:+ t]) Hrest) as (d' & ? & ? & ->).
      exists d'. split_and!; [by right|done|done].
    + apply dependency_tag_raises in Ht as [-> ?].
      exists d. split_and!; [by left|done|done].
Qed.

(** With every entry present the loop runs to its end. *)
Lemma deps_join_loop_present bc deps acc :
  (forall d, d ∈ deps -> is_Some (components bc !! d)) ->
  exists l, deps_join_loop bc deps acc = Ok l.
Proof.
  revert acc. induction deps as [|d deps IH]; intros acc H; simpl; [eauto|].
  destruct (H d) as [cc Hcc]; [by left|].
  destruct (dependency_tag_present _ _ _ Hcc) as (t & -> & _).
  apply IH. intros d' ?. apply H. by right.
Qed.

End BuilderFacts.

(** ** The identifier *)

(** C1 (as amended): in the scenario of the specification (a builder
    named "web" declared with ["db"; "cache"], whose images are
    ".../db:1.0_" and ".../cache:2.0_", repository "acme", RELEASE "3.0")
    the tag algorithm computes "acme/web:3.0_cache2.0__db1.0_": each
    tag-suffix is what follows the last colon ("2.0_" and "1.0_"), the
    name comes once before it, and the pairs are joined by one
    underscore.  Nothing else of the builder or of the configuration
    matters. *)
Theorem scenario_identifier
    (b : BaseImageBuilder) (bc : Configuration) (evs : list Event)
    (db cache : ComponentConfig) :
  _name b = "web" ->
  _dependencies b = ["db"; "cache"] ->
  repository bc = "acme" ->
  components bc !! "db" = Some db -> image_name db = ".../db:1.0_" ->
  components bc !! "cache" = Some cache -> image_name cache = ".../cache:2.0_" ->
  snd (_get_image_name RELEASE (Some "3.0") bc (mkSt b evs))
  = Ok "acme/web:3.0_cache2.0__db1.0_".
Proof.
  intros Hname Hdeps Hrepo Hdb Hdbi Hcache Hcachei.
  rewrite get_image_name_unfold. cbn [component_tag self].
  rewrite Hdeps, Hname, Hrepo.
  change (Py.sort ["db"; "cache"]) with ["cache"; "db"].
  cbn [deps_join_loop]. unfold dependency_tag.
  rewrite Hcache, Hcachei, Hdb, Hdbi. reflexivity.
Qed.

Lemma scenario_identifier_witness :
  outcome (_get_image_name RELEASE (Some "3.0") Sample.built_config) Sample.web
  = Ok "acme/web:3.0_cache2.0__db1.0_".
Proof.
  apply (scenario_identifier Sample.web Sample.built_config []
           Sample.db_config Sample.cache_config); reflexivity.
Defined.

(** C1 (as stated) fails: the identifier of the scenario is not
    "acme/web:3.0_cachecache2.0_dbdb1.0". *)
Lemma scenario_identifier_not_as_specified :
  outcome (_get_image_name RELEASE (Some "3.0") Sample.built_config) Sample.web
  <> Ok "acme/web:3.0_cachecache2.0_dbdb1.0".
Proof. vm_compute. discriminate. Qed.

(** C2: the identifier is a function of the repository, the component
    name, the component tag and the set of (dependency, tag-suffix)
    pairs.  Two computations that agree on these, with the dependencies
    declared in any two orders, end with the same identifier (or the same
    exception). *)
Theorem identifier_independent_of_declaration_order
    (b1 b2 : BaseImageBuilder) (bc1 bc2 : Configuration)
    (dt1 dt2 : DistType) (v1 v2 : option string) (evs1 evs2 : list Event) :
  _name b1 = _name b2 ->
  repository bc1 = repository bc2 ->
  component_tag dt1 v1 bc1 = component_tag dt2 v2 bc2 ->
  _dependencies b1 ≡ₚ _dependencies b2 ->
  (forall d, d ∈ _dependencies b1 -> dependency_tag bc1 d = dependency_tag bc2 d) ->
  snd (_get_image_name dt1 v1 bc1 (mkSt b1 evs1))
  = snd (_get_image_name dt2 v2 bc2 (mkSt b2 evs2)).
Proof.
  intros Hn Hr Hc Hp Hd. rewrite !get_image_name_unfold. simpl.
  rewrite <- Hc, <- Hn, <- Hr, <- (PyFacts.sort_permuted _ _ Hp).
  destruct (component_tag dt1 v1 bc1); [|reflexivity].
  rewrite <- (deps_join_loop_agree bc1 bc2).
  - destruct (deps_join_loop bc1 _ _); reflexivity.
  - intros d Hin. apply Hd. by apply PyFacts.sort_elem_of.
Qed.

Lemma identifier_independent_of_declaration_order_witness :
  outcome (_get_image_name RELEASE (Some "3.0") Sample.built_config)
          (Sample.web_with ["db"; "cache"])
  = outcome (_get_image_name RELEASE (Some "3.0") Sample.built_config)
            (Sample.web_with ["cache"; "db"]).
Proof.
  apply (identifier_independent_of_declaration_order
           (Sample.web_with ["db"; "cache"]) (Sample.web_with ["cache"; "db"])
           Sample.built_config Sample.built_config RELEASE RELEASE
           (Some "3.0") (Some "3.0") [] []).
  - reflexivity.
  - reflexivity.
  - reflexivity.
  - simpl. apply Permutation_swap.
  - intros d _. reflexivity.
Defined.

(** ** Facts about [build] *)

Section BuildFacts.

Variable ext : Externals.
Implicit Types (b : BaseImageBuilder) (bc : Configuration) (s : St).

Lemma reuse_existing_image_unfold force dt image s :
  reuse_existing_image ext force dt image s =
  if negb force && bool_decide (dt = RELEASE)
  then (mkSt (self s) (events s ++ [EvImageExists image]),
        Ok (image_exists_locally ext image))
  else (s, Ok false).
Proof.
  unfold reuse_existing_image. destruct force; simpl; [reflexivity|].
  destruct dt; reflexivity.
Qed.

Lemma print_reusing_unfold image s :
  print_reusing image s =
  (mkSt (self s)
        (events s ++ [EvPrint ("Reusing existing " +:+ _name (self s)
                               +:+ " image: " +:+ image +:+ ".")]),
   Ok tt).
Proof. reflexivity. Qed.

(** What a rebuild does to the state: the builder object is left alone,
    the handler is entered first, and once it has been entered its exit
    is the last thing that happens, whether the body returned or raised. *)
Lemma rebuild_shape dt arg image bc s :
  exists rest,
    fst (rebuild ext dt arg image bc s)
    = mkSt (self s) (events s ++ EvTmpDirEnter (scratch_dir ext bc (self s)) :: rest)
    /\ match tmp_dir_enter ext (scratch_dir ext bc (self s)) with
       | Ok _ => last rest = Some (EvTmpDirExit (scratch_dir ext bc (self s)))
       | Raise e => rest = [] /\ snd (rebuild ext dt arg image bc s) = Raise e
       end.
Proof.
  unfold rebuild, TmpDirHandler, with_handler, _get_resource_dir,
    _prepare_tarfile_release, _prepare_tarfile_snapshot, _build_docker_image,
    name, scratch_dir, bind, lift, emit, get_self, ret.
  simpl. destruct (tmp_dir_enter ext _) as [tmp|e]; simpl.
  2:{ exists []. split; [reflexivity|]. split; reflexivity. }
  destruct dt; simpl.
  - destruct (str_format ext _ _) as [url|e]; simpl;
      [|rewrite <- ?app_assoc; simpl;
        (eexists; split; [reflexivity|]); reflexivity].
    destruct (wget_download ext _ _); simpl;
      [destruct (docker_images_build ext _ _); simpl|];
      rewrite <- ?app_assoc; simpl;
      (eexists; split; [reflexivity|]); reflexivity.
  - destruct (tarfile_add ext _ _ _); simpl;
      [destruct (docker_images_build ext _ _); simpl|];
      rewrite <- ?app_assoc; simpl;
      (eexists; split; [reflexivity|]); reflexivity.
Qed.

(** [build] in one piece. *)
Lemma build_unfold cfg bc force s :
  build ext cfg bc force s =
  match dist_type_and_arg ext cfg with
  | Raise e => (s, Raise e)
  | Ok (dt, arg) =>
      match _get_image_name dt (version_argument dt arg) bc s with
      | (s1, Raise e) => (s1, Raise e)
      | (s1, Ok image) =>
          let (s2, reuse) := reuse_existing_image ext force dt image s1 in
          match reuse with
          | Raise e => (s2, Raise e)
          | Ok reuse =>
              match (if reuse : bool then print_reusing image
                     else rebuild ext dt arg image bc) s2 with
              | (s3, Raise e) => (s3, Raise e)
              | (s3, Ok _) =>
                  (s3, Ok (mkComponentConfig dt
                             match dt with
                             | RELEASE => arg
                             | SNAPSHOT => _version_from_image_name (self s3) image
                             end image))
              end
          end
      end
  end.
Proof.
  unfold build, bind, lift.
  destruct (dist_type_and_arg ext cfg) as [[dt arg]|e]; [|reflexivity].
  destruct (_get_image_name _ _ _ _) as [s1 [image|e]]; [|reflexivity].
  destruct (reuse_existing_image _ _ _ _ _) as [s2 [reuse|e]]; [|reflexivity].
  destruct (if reuse then _ else _) as [s3 [u|e]]; [|reflexivity].
  destruct dt; reflexivity.
Qed.

End BuildFacts.

Section BuildRun.

Variable ext : Externals.
Implicit Types (b : BaseImageBuilder) (bc : Configuration) (s : St).

Lemma component_tag_of_request dt arg bc :
  component_tag dt (version_argument dt arg) bc = Ok (tag_of_request dt arg bc).
Proof. destruct dt; reflexivity. Qed.

Lemma get_image_name_run dt arg bc b evs :
  _get_image_name dt (version_argument dt arg) bc (mkSt b evs) =
  let sorted := Py.sort (_dependencies b) in
  (mkSt (set_dependencies b sorted) evs,
   match deps_join_loop bc sorted [] with
   | Raise e => Raise e
   | Ok l => Ok (format_template (repository bc) (_name b)
                   (tag_of_request dt arg bc) (Py.join "_" l))
   end).
Proof.
  rewrite get_image_name_unfold, component_tag_of_request. simpl.
  destruct (deps_join_loop _ _ _); reflexivity.
Qed.

Local Ltac finish_exit H :=
  unfold scratch_dir in *; simpl in H; simpl;
  destruct (tmp_dir_enter ext _); [exact H|];
  destruct H as [-> H];
  first [discriminate | split; [reflexivity|congruence]].

(** The state and the result of [build] once the dist type is known. *)
Lemma build_run cfg bc force b dt arg :
  dist_type_and_arg ext cfg = Ok (dt, arg) ->
  let b' := set_dependencies b (Py.sort (_dependencies b)) in
  match outcome (_get_image_name dt (version_argument dt arg) bc) b with
  | Raise e => build ext cfg bc force (mkSt b []) = (mkSt b' [], Raise e)
  | Ok image =>
      if negb force && bool_decide (dt = RELEASE) && image_exists_locally ext image
      then build ext cfg bc force (mkSt b [])
           = (mkSt b' [EvImageExists image;
                       EvPrint ("Reusing existing " +:+ _name b
                                +:+ " image: " +:+ image +:+ ".")],
              Ok (mkComponentConfig dt arg image))
      else exists pre rest r,
           build ext cfg bc force (mkSt b [])
           = (mkSt b' (pre ++ EvTmpDirEnter (scratch_dir ext bc b) :: rest), r)
           /\ (pre = [] \/ pre = [EvImageExists image])
           /\ (forall cc, r = Ok cc ->
                 cc = mkComponentConfig dt
                        match dt with
                        | RELEASE => arg
                        | SNAPSHOT => _version_from_image_name b image
                        end image)
           /\ match tmp_dir_enter ext (scratch_dir ext bc b) with
              | Ok _ => last rest = Some (EvTmpDirExit (scratch_dir ext bc b))
              | Raise e => rest = [] /\ r = Raise e
              end
  end.
Proof.
  intros Hd b'. unfold outcome.
  rewrite build_unfold, Hd.
  rewrite get_image_name_run. cbn zeta. cbn [snd]. fold b'.
  destruct (deps_join_loop _ _ _) as [l|e]; [|reflexivity].
  set (image := format_template _ _ _ _).
  rewrite reuse_existing_image_unfold. cbn [self events].
  destruct (negb force && bool_decide (dt = RELEASE)) eqn:Hgate; cbn [andb].
  - destruct (image_exists_locally ext image) eqn:Hex.
    + rewrite print_reusing_unfold. simpl.
      destruct dt; [reflexivity|by destruct force].
    + destruct (rebuild_shape ext dt arg image bc
                  (mkSt b' [EvImageExists image])) as (rest & Hfst & Hexit).
      destruct (rebuild ext dt arg image bc _) as [s3 r] eqn:Hr.
      simpl in Hfst. subst s3.
      exists [EvImageExists image], rest.
      change (scratch_dir ext bc b') with (scratch_dir ext bc b) in *.
      destruct r as [[]|e].
      * eexists. split; [reflexivity|]. split; [by right|]. split.
        { intros cc [= <-]. destruct dt; reflexivity. }
        finish_exit Hexit.
      * eexists. split; [reflexivity|]. split; [by right|]. split; [done|].
        finish_exit Hexit.
  - destruct (rebuild_shape ext dt arg image bc (mkSt b' [])) as (rest & Hfst & Hexit).
    destruct (rebuild ext dt arg image bc _) as [s3 r] eqn:Hr.
    simpl in Hfst. subst s3.
    exists [], rest.
    change (scratch_dir ext bc b') with (scratch_dir ext bc b) in *.
    destruct r as [[]|e].
    + eexists. split; [reflexivity|]. split; [by left|]. split.
      { intros cc [= <-]. destruct dt; reflexivity. }
      finish_exit Hexit.
    + eexists. split; [reflexivity|]. split; [by left|]. split; [done|].
      finish_exit Hexit.
Qed.

End BuildRun.

(** ** The claims about [build] *)

Section BuildTheorems.

Variable ext : Externals.
Implicit Types (b : BaseImageBuilder) (bc : Configuration).

Lemma reuse_condition_bool force dt image :
  negb force && bool_decide (dt = RELEASE) && image_exists_locally ext image = true
  <-> reuse_condition ext force dt image.
Proof.
  unfold reuse_condition.
  destruct force, dt, (image_exists_locally ext image); simpl;
    (split; [intros Ht; try discriminate; done
            |intros (H1 & H2 & H3); try discriminate; done]).
Qed.

Lemma builder_after_build cfg bc force b :
  builder_after (build ext cfg bc force) b =
  match dist_type_and_arg ext cfg with
  | Ok _ => set_dependencies b (Py.sort (_dependencies b))
  | Raise _ => b
  end.
Proof.
  unfold builder_after.
  destruct (dist_type_and_arg ext cfg) as [[dt arg]|e] eqn:Hd.
  - pose proof (build_run ext cfg bc force b dt arg Hd) as Hrun. cbn zeta in Hrun.
    destruct (outcome _ b) as [image|e].
    + destruct (_ && _ && _).
      * by rewrite Hrun.
      * destruct Hrun as (pre & rest & r & -> & _). reflexivity.
    + by rewrite Hrun.
  - rewrite build_unfold, Hd. reflexivity.
Qed.


(** C5: when a declared dependency has no entry in
    [built_config.components], [build] raises the lookup error (Python's
    [KeyError], the specification's MissingDependencyError) for such a
    dependency, and it does so before anything else happens: the event
    log of the call is empty, no identifier is produced. *)
Theorem missing_dependency_fails_fast cfg bc force b dt arg :
  dist_type_and_arg ext cfg = Ok (dt, arg) ->
  (exists d, d ∈ _dependencies b /\ components bc !! d = None) ->
  exists d, d ∈ _dependencies b /\ components bc !! d = None /\
    outcome (build ext cfg bc force) b = Raise (KeyError d) /\
    trace_of (build ext cfg bc force) b = [] /\
    outcome (_get_image_name dt (version_argument dt arg) bc) b = Raise (KeyError d).
Proof.
  intros Hd (d0 & Hin & Hnone).
  destruct (deps_join_loop_missing bc (Py.sort (_dependencies b)) [])
    as (d & Hd1 & Hd2 & Hloop).
  { exists d0. split; [by apply PyFacts.sort_elem_of|done]. }
  exists d. split; [by apply PyFacts.sort_elem_of|]. split; [done|].
  pose proof (build_run ext cfg bc force b dt arg Hd) as Hrun. cbn zeta in Hrun.
  unfold outcome, trace_of in *. rewrite get_image_name_run in *.
  cbn [snd] in *. rewrite Hloop in *. rewrite Hrun. done.
Qed.

(** C6 (as amended): a successful [build] returns the dist type, and the
    identifier it has just computed as [image_name]; the version is the
    requested version for a RELEASE, and for a SNAPSHOT it is what the
    builder's [version_from_image_name] callable returns on that
    identifier; it is the component tag exactly when the callable returns
    the component tag there. *)
Theorem returned_version cfg bc force b cc :
  outcome (build ext cfg bc force) b = Ok cc ->
  exists arg,
    dist_type_and_arg ext cfg = Ok (dist_type cc, arg) /\
    outcome (_get_image_name (dist_type cc)
               (version_argument (dist_type cc) arg) bc) b
    = Ok (image_name cc) /\
    version cc = match dist_type cc with
                 | RELEASE => arg
                 | SNAPSHOT => _version_from_image_name b (image_name cc)
                 end /\
    (dist_type cc = SNAPSHOT ->
     (version cc = "snapshot_" +:+ timestamp bc <->
      _version_from_image_name b (image_name cc) = "snapshot_" +:+ timestamp bc)).
Proof.
  intros Hcc. unfold outcome in Hcc.
  destruct (dist_type_and_arg ext cfg) as [[dt arg]|e] eqn:Hd.
  2:{ rewrite build_unfold, Hd in Hcc. discriminate. }
  pose proof (build_run ext cfg bc force b dt arg Hd) as Hrun. cbn zeta in Hrun.
  destruct (outcome _ b) as [image|e] eqn:Himg.
  - assert (cc = mkComponentConfig dt
                   match dt with
                   | RELEASE => arg
                   | SNAPSHOT => _version_from_image_name b image
                   end image) as ->.
    { destruct (_ && _ && _) eqn:Hc.
      - rewrite Hrun in Hcc. injection Hcc as <-.
        destruct dt; [reflexivity|].
        by destruct force.
      - destruct Hrun as (pre & rest & r & Hb & _ & Hr & _).
        rewrite Hb in Hcc. by apply Hr. }
    exists arg. cbn [dist_type image_name version].
    split; [done|]. split; [done|]. split; [done|].
    by intros ->.
  - rewrite Hrun in Hcc. discriminate.
Qed.

(** C10: computing the identifier sorts the builder's own list.  After a
    call to [build] that reaches the tag computation, [dependencies()]
    returns the sorted permutation of the declared list, nothing else of
    the builder has changed, and the list stays so over later calls. *)
Theorem build_sorts_dependencies_in_place cfg bc force b dt arg :
  dist_type_and_arg ext cfg = Ok (dt, arg) ->
  let b' := builder_after (build ext cfg bc force) b in
  b' = set_dependencies b (Py.sort (_dependencies b))
  /\ builder_after (_get_image_name dt (version_argument dt arg) bc) b = b'
  /\ outcome dependencies b' = Ok (Py.sort (_dependencies b))
  /\ Sorted String.le (_dependencies b')
  /\ _dependencies b' ≡ₚ _dependencies b
  /\ (forall cfg2 bc2 force2,
        outcome dependencies (builder_after (build ext cfg2 bc2 force2) b')
        = Ok (Py.sort (_dependencies b))).
Proof.
  intros Hd b'. subst b'. rewrite builder_after_build, Hd.
  split; [reflexivity|]. split.
  { unfold builder_after. rewrite get_image_name_run. reflexivity. }
  split; [reflexivity|]. cbn [set_dependencies _dependencies].
  split; [apply PyFacts.sort_Sorted|]. split; [apply PyFacts.sort_Permutation|].
  intros cfg2 bc2 force2. rewrite builder_after_build.
  destruct (dist_type_and_arg ext cfg2); [|reflexivity].
  unfold outcome, dependencies. simpl. by rewrite PyFacts.sort_idempotent.
Qed.

End BuildTheorems.

(** ** The claims at the scenario of the specification *)


Lemma missing_dependency_fails_fast_witness :
  exists d, d ∈ ["db"; "cache"] /\
    components Sample.built_config_without_cache !! d = None /\
    outcome (build Sample.ext Sample.release_3_0
               Sample.built_config_without_cache false) Sample.web
    = Raise (KeyError d) /\
    trace_of (build Sample.ext Sample.release_3_0
                Sample.built_config_without_cache false) Sample.web = [] /\
    outcome (_get_image_name RELEASE (version_argument RELEASE "3.0")
               Sample.built_config_without_cache) Sample.web
    = Raise (KeyError d).
Proof.
  apply (missing_dependency_fails_fast Sample.ext Sample.release_3_0
           Sample.built_config_without_cache false Sample.web RELEASE "3.0").
  - reflexivity.
  - exists "cache". split; [|reflexivity].
    apply list_elem_of_further, list_elem_of_here.
Defined.

Lemma returned_version_witness :
  exists arg,
    dist_type_and_arg Sample.ext Sample.snapshot_web = Ok (SNAPSHOT, arg) /\
    outcome (_get_image_name SNAPSHOT (version_argument SNAPSHOT arg)
               Sample.built_config) Sample.web
    = Ok "acme/web:snapshot_1556000000_cache2.0__db1.0_" /\
    "snapshot_1556000000_cache2.0__db1.0_"
    = Sample.after_last_colon "acme/web:snapshot_1556000000_cache2.0__db1.0_" /\
    (SNAPSHOT = SNAPSHOT ->
     ("snapshot_1556000000_cache2.0__db1.0_" = "snapshot_1556000000" <->
      Sample.after_last_colon "acme/web:snapshot_1556000000_cache2.0__db1.0_"
      = "snapshot_1556000000")).
Proof.
  apply (returned_version Sample.ext Sample.snapshot_web Sample.built_config
           false Sample.web
           (mkComponentConfig SNAPSHOT "snapshot_1556000000_cache2.0__db1.0_"
              "acme/web:snapshot_1556000000_cache2.0__db1.0_")).
  reflexivity.
Defined.

(** C6 (as stated) fails: the builder "web" is given [split(":")[-1]] as
    its extractor; its SNAPSHOT build succeeds, the component tag is
    "snapshot_1556000000", and the version returned is the whole tag of
    the image, dependencies included. *)
Lemma snapshot_version_is_not_component_tag :
  exists cc,
    outcome (build Sample.ext Sample.snapshot_web Sample.built_config false)
            Sample.web = Ok cc /\
    dist_type cc = SNAPSHOT /\
    component_tag SNAPSHOT None Sample.built_config = Ok "snapshot_1556000000" /\
    version cc = "snapshot_1556000000_cache2.0__db1.0_" /\
    version cc <> "snapshot_1556000000".
Proof.
  eexists. split; [vm_compute; reflexivity|].
  split; [reflexivity|]. split; [reflexivity|]. split; [reflexivity|].
  simpl. discriminate.
Qed.

Lemma build_sorts_dependencies_in_place_witness :
  builder_after (build Sample.ext Sample.release_3_0
                   Sample.built_config false) Sample.web
  = set_dependencies Sample.web (Py.sort ["db"; "cache"])
  /\ builder_after (_get_image_name RELEASE (version_argument RELEASE "3.0")
                      Sample.built_config) Sample.web
     = builder_after (build Sample.ext Sample.release_3_0
                        Sample.built_config false) Sample.web
  /\ outcome dependencies
       (builder_after (build Sample.ext Sample.release_3_0
                         Sample.built_config false) Sample.web)
     = Ok (Py.sort ["db"; "cache"])
  /\ Sorted String.le
       (_dependencies
          (builder_after (build Sample.ext Sample.release_3_0
                            Sample.built_config false) Sample.web))
  /\ _dependencies
       (builder_after (build Sample.ext Sample.release_3_0
                         Sample.built_config false) Sample.web)
     ≡ₚ ["db"; "cache"]
  /\ (forall cfg2 bc2 force2,
        outcome dependencies
          (builder_after (build Sample.ext cfg2 bc2 force2)
             (builder_after (build Sample.ext Sample.release_3_0
                               Sample.built_config false) Sample.web))
        = Ok (Py.sort ["db"; "cache"])).
Proof.
  apply (build_sorts_dependencies_in_place Sample.ext Sample.release_3_0
           Sample.built_config false Sample.web RELEASE "3.0").
  reflexivity.
Defined.

(** The scenario "force_rebuild with an existing matching artifact": the
    existence check is not even made and the rebuild goes on. *)
Example forced_rebuild_with_existing_image :
  trace_of (build Sample.ext_with_image Sample.release_3_0
              Sample.built_config true) Sample.web
  = [EvTmpDirEnter "/resources/web";
     EvPrint "Downloading web release version 3.0 from https://example.org/web-3.0.tar.gz.";
     EvWgetDownload "https://example.org/web-3.0.tar.gz"
       "/resources/web/tmp/web.tar.gz";
     EvPrint "";
     EvPrint "Building docker image acme/web:3.0_cache2.0__db1.0_.";
     EvDockerBuild "/resources/web" "acme/web:3.0_cache2.0__db1.0_";
     EvTmpDirExit "/resources/web"].
Proof. reflexivity. Qed.

Example release_reuses_existing_image :
  trace_of (build Sample.ext_with_image Sample.release_3_0
              Sample.built_config false) Sample.web
  = [EvImageExists "acme/web:3.0_cache2.0__db1.0_";
     EvPrint "Reusing existing web image: acme/web:3.0_cache2.0__db1.0_."].
Proof. reflexivity. Qed.

(** A SNAPSHOT is rebuilt although its image exists. *)
Example snapshot_is_always_rebuilt :
  trace_of (build Sample.ext_with_image Sample.snapshot_web
              Sample.built_config false) Sample.web
  = [EvTmpDirEnter "/resources/web";
     EvPrint "Preparing web snapshot version from path ~/src/web.";
     EvTarAdd "/resources/web/tmp/web.tar.gz" "~/src/web" "web";
     EvPrint "Building docker image acme/web:snapshot_1556000000_cache2.0__db1.0_.";
     EvDockerBuild "/resources/web"
       "acme/web:snapshot_1556000000_cache2.0__db1.0_";
     EvTmpDirExit "/resources/web"].
Proof. reflexivity. Qed.

(** The declared order ["db"; "cache"] is gone after one call. *)
Example dependencies_after_build :
  outcome dependencies Sample.web = Ok ["db"; "cache"] /\
  outcome dependencies
    (builder_after (build Sample.ext Sample.release_3_0
                      Sample.built_config false) Sample.web)
  = Ok ["cache"; "db"].
Proof. split; reflexivity. Qed.

(** An image name without a colon is its own tag-suffix. *)
Example dependency_tag_without_colon :
  dependency_tag
    (mkConfiguration "acme" "0"
       {[ "db" := mkComponentConfig RELEASE "1.0" "db-image" ]} "/r") "db"
  = Ok "db-image".
Proof. reflexivity. Qed.

(** One identifier, two component tags: timestamp "a_b" without
    dependencies, and timestamp "a" with the dependency "b" whose image
    tag is "_".  So whatever extractor a builder is given, the version of
    one of the two SNAPSHOT builds differs from its component tag. *)
Lemma no_version_extractor_round_trips (f : string -> string) :
  exists deps bc cc,
    let b := mkBaseImageBuilder "n" deps "" f in
    outcome (build Sample.ext Sample.snapshot_web bc false) b = Ok cc /\
    dist_type cc = SNAPSHOT /\
    version cc <> "snapshot_" +:+ timestamp bc.
Proof.
  set (bcA := mkConfiguration "r" "a_b" ∅ "/r").
  set (bcB := mkConfiguration "r" "a"
                {[ "b" := mkComponentConfig RELEASE "" "r/b:_" ]} "/r").
  destruct (decide (f "r/n:snapshot_a_b_" = "snapshot_a_b")) as [Heq|Hne].
  - exists ["b"], bcB,
      (mkComponentConfig SNAPSHOT (f "r/n:snapshot_a_b_") "r/n:snapshot_a_b_").
    split; [reflexivity|]. split; [reflexivity|].
    cbn [version]. rewrite Heq. discriminate.
  - exists [], bcA,
      (mkComponentConfig SNAPSHOT (f "r/n:snapshot_a_b_") "r/n:snapshot_a_b_").
    split; [reflexivity|]. split; [reflexivity|].
    exact Hne.
Qed.

(** ** Facts about the stages *)

Module StageFacts.
Import Stages.

(** C8: with [parent_dir] an existing directory, the execution of
    [CreateCacheStage] leaves the cache directory in place, keeps every
    entry that was there (the content of the cache included), changes
    nothing at all when the cache directory was already there, and is
    idempotent; it does return whenever no regular file has the name of
    the cache directory. *)
Theorem create_cache_stage_idempotent (parent_dir : FsPath) (fs : FS) :
  check_precondition (CreateCacheStage parent_dir) fs = true ->
  ((forall content, fs !! child parent_dir "cache" <> Some (RegularFile content)) ->
   exists fs1, execute (CreateCacheStage parent_dir) fs = Done fs1)
  /\ forall fs1, execute (CreateCacheStage parent_dir) fs = Done fs1 ->
       fs1 !! child parent_dir "cache" = Some Directory
       /\ (forall p n, fs !! p = Some n -> fs1 !! p = Some n)
       /\ (fs !! child parent_dir "cache" = Some Directory -> fs1 = fs)
       /\ check_precondition (CreateCacheStage parent_dir) fs1 = true
       /\ execute (CreateCacheStage parent_dir) fs1 = Done fs1.
Proof.
  intros Hpre. simpl in *. unfold is_dir in *.
  apply bool_decide_eq_true in Hpre. split.
  - intros Hfile.
    destruct (fs !! child parent_dir "cache") as [[|c]|] eqn:Hc; eauto.
    by destruct (Hfile c).
  - intros fs1 Hex.
    destruct (fs !! child parent_dir "cache") as [[|c]|] eqn:Hc;
      [injection Hex as <- | discriminate | injection Hex as <-].
    + rewrite Hc. split; [done|]. split; [done|]. split; [done|].
      split; [|done]. by apply bool_decide_eq_true.
    + unfold mkdir, FS, FsPath in *. rewrite lookup_insert_eq. split; [done|].
      split; [|split; [done|split; [|done]]].
      * intros p n Hp. rewrite lookup_insert_ne; [done|]. congruence.
      * apply bool_decide_eq_true.
        rewrite lookup_insert_ne; [done|].
        unfold child. intros Heq.
        apply (f_equal length) in Heq. rewrite length_app in Heq.
        simpl in Heq. lia.
Qed.

Lemma create_cache_stage_idempotent_witness :
  check_precondition (CreateCacheStage tmp_dir_path) tmp_dir_with_cache = true
  /\ tmp_dir_with_cache !! child tmp_dir_path "cache" = Some Directory
  /\ (forall p n, tmp_dir_with_cache !! p = Some n ->
                  tmp_dir_with_cache !! p = Some n)
  /\ (tmp_dir_with_cache !! child tmp_dir_path "cache" = Some Directory ->
      tmp_dir_with_cache = tmp_dir_with_cache)
  /\ check_precondition (CreateCacheStage tmp_dir_path) tmp_dir_with_cache = true
  /\ execute (CreateCacheStage tmp_dir_path) tmp_dir_with_cache
     = Done tmp_dir_with_cache.
Proof.
  split; [reflexivity|].
  apply (create_cache_stage_idempotent tmp_dir_path tmp_dir_with_cache);
    reflexivity.
Defined.

(** The tests of [TestCreateCacheStage]. *)
Example test_check_precondition_returns_false_when_parent_dir_does_not_exist :
  exists_ empty_tmp_dir (tmp_dir_path ++ ["non"; "existent"; "directory"]) = false
  /\ check_precondition
       (CreateCacheStage (tmp_dir_path ++ ["non"; "existent"; "directory"]))
       empty_tmp_dir = false.
Proof. split; reflexivity. Qed.

Example test_check_precondition_returns_false_when_parent_dir_is_not_a_directory :
  let fs := touch empty_tmp_dir (child tmp_dir_path "file") in
  exists_ fs (child tmp_dir_path "file") = true
  /\ check_precondition (CreateCacheStage (child tmp_dir_path "file")) fs = false.
Proof. split; reflexivity. Qed.

Example test_check_precondition_returns_true_when_parent_dir_exists :
  check_precondition (CreateCacheStage tmp_dir_path) empty_tmp_dir = true.
Proof. reflexivity. Qed.

Example test_execute_creates_cache_directory :
  exists fs1,
    execute (CreateCacheStage tmp_dir_path) empty_tmp_dir = Done fs1
    /\ exists_ fs1 (child tmp_dir_path "cache") = true.
Proof. eexists. split; reflexivity. Qed.

Example test_execute_does_nothing_if_cache_directory_already_exists :
  exists fs1,
    execute (CreateCacheStage tmp_dir_path) tmp_dir_with_cache = Done fs1
    /\ exists_ fs1 (child tmp_dir_path "cache") = true
    /\ exists_ fs1 (child (child tmp_dir_path "cache") "file") = true
    /\ fs1 = tmp_dir_with_cache.
Proof. eexists. repeat split; reflexivity. Qed.

End StageFacts.

(** ** More about strings and the built-ins *)

Module StrFacts.

Lemma app_nil_r (s : string) : s +:+ "" = s.
Proof.
  induction s as [|a s IH]; [reflexivity|].
  change (String a s +:+ "") with (String a (s +:+ "")). by rewrite IH.
Qed.

Lemma app_assoc (a b c : string) : (a +:+ b) +:+ c = a +:+ (b +:+ c).
Proof.
  induction a as [|x a IH]; [reflexivity|].
  change (String x ((a +:+ b) +:+ c) = String x (a +:+ (b +:+ c))).
  by rewrite IH.
Qed.

Lemma length_app (a b : string) :
  String.length (a +:+ b) = String.length a + String.length b.
Proof.
  induction a as [|x a IH]; [reflexivity|].
  change (String x a +:+ b) with (String x (a +:+ b)). simpl. by rewrite IH.
Qed.

(** Two splittings of one string at the same position are the same. *)
Lemma app_inj_length (a1 a2 b1 b2 : string) :
  String.length a1 = String.length a2 ->
  a1 +:+ b1 = a2 +:+ b2 -> a1 = a2 /\ b1 = b2.
Proof.
  revert a2. induction a1 as [|x a1 IH]; intros [|y a2] Hlen Heq;
    try discriminate.
  - split; [reflexivity|exact Heq].
  - change (String x (a1 +:+ b1) = String y (a2 +:+ b2)) in Heq.
    injection Heq as -> Heq. injection Hlen as Hlen.
    destruct (IH a2 Hlen Heq) as [-> ->]. done.
Qed.

Lemma contains_app (c : ascii) (a b : string) :
  Py.contains c (a +:+ b) = Py.contains c a || Py.contains c b.
Proof.
  induction a as [|x a IH]; [reflexivity|].
  change (String x a +:+ b) with (String x (a +:+ b)). simpl.
  case_decide; [reflexivity|exact IH].
Qed.

(** No piece of a split contains the separator. *)
Lemma split_pieces_without_sep (sep : ascii) (s piece : string) :
  piece ∈ Py.split sep s -> Py.contains sep piece = false.
Proof.
  revert piece. induction s as [|a s IH]; intros piece; simpl.
  - intros ->%list_elem_of_singleton. reflexivity.
  - case_decide as Ha.
    + intros [->|Hin]%elem_of_cons; [reflexivity|by apply IH].
    + pose proof (PyFacts.split_nonempty sep s) as Hne.
      destruct (Py.split sep s) as [|w ws]; [done|].
      intros [->|Hin]%elem_of_cons.
      * simpl. case_decide; [done|]. apply IH. by left.
      * apply IH. by right.
Qed.

Lemma join_cons (sep x : string) (l : list string) :
  Py.join sep (x :: l) =
  x +:+ match l with [] => "" | _ :: _ => sep +:+ Py.join sep l end.
Proof. destruct l; [by rewrite app_nil_r|reflexivity]. Qed.

(** A join of pieces without a character, by a separator without it,
    does not contain it. *)
Lemma join_without (c : ascii) (sep : string) (l : list string) :
  Py.contains c sep = false ->
  Forall (fun x => Py.contains c x = false) l ->
  Py.contains c (Py.join sep l) = false.
Proof.
  intros Hsep. induction 1 as [|x l Hx Hl IH]; [reflexivity|].
  rewrite join_cons, contains_app, Hx. simpl.
  destruct l; [reflexivity|]. by rewrite contains_app, Hsep, IH.
Qed.

Section Entries.

Variables (g1 g2 : string -> string) (sep d : string).

Local Abbreviation entries g l := (Py.join sep (map (fun x => x +:+ g x) l)).

(** The lengths of two joins that differ in the suffix of [d] only. *)
Lemma join_entries_length (l : list string) :
  (forall x, x ∈ l -> x <> d -> g1 x = g2 x) ->
  exists k, (d ∈ l -> 1 <= k) /\
    String.length (entries g1 l) + k * String.length (g2 d)
    = String.length (entries g2 l) + k * String.length (g1 d).
Proof.
  induction l as [|x l IH]; intros Hagree.
  - exists 0. split; [by intros ?%elem_of_nil|reflexivity].
  - destruct IH as (k & Hk & Hlen).
    { intros y Hy. apply Hagree. by right. }
    cbn [map]. rewrite !join_cons, !length_app.
    destruct (decide (x = d)) as [->|Hne].
    + exists (S k). split; [lia|].
      destruct l as [|y l]; cbn [map] in *; [simpl in *; lia|].
      rewrite !length_app. lia.
    + rewrite (Hagree x) by (done || by left).
      exists k. split.
      { intros [?|?]%elem_of_cons; [done|by apply Hk]. }
      destruct l as [|y l]; cbn [map] in *; [simpl in *; lia|].
      rewrite !length_app. lia.
Qed.

Lemma join_entries_inj_at (l : list string) :
  (forall x, x ∈ l -> x <> d -> g1 x = g2 x) ->
  d ∈ l ->
  String.length (g1 d) = String.length (g2 d) ->
  entries g1 l = entries g2 l -> g1 d = g2 d.
Proof.
  induction l as [|x l IH]; intros Hagree Hin Hlen Heq.
  - by apply elem_of_nil in Hin.
  - cbn [map] in Heq. rewrite !join_cons, !app_assoc in Heq.
    apply (inj (String.app x)) in Heq.
    destruct (decide (x = d)) as [->|Hne].
    + by destruct (app_inj_length _ _ _ _ Hlen Heq).
    + rewrite (Hagree x) in Heq by (done || by left).
      apply (inj (String.app (g2 x))) in Heq.
      apply elem_of_cons in Hin as [?|Hin]; [done|].
      destruct l as [|y l]; [by apply elem_of_nil in Hin|].
      cbn [map] in Heq. apply (inj (String.app sep)) in Heq.
      apply IH; [|done..]. intros z Hz. apply Hagree. by right.
Qed.

(** Joins of entries that differ in the suffix of one name only, and
    really differ there, are different. *)
Lemma join_entries_differ (l : list string) :
  (forall x, x ∈ l -> x <> d -> g1 x = g2 x) ->
  d ∈ l -> g1 d <> g2 d -> entries g1 l <> entries g2 l.
Proof.
  intros Hagree Hin Hdiff Heq. apply Hdiff.
  apply (join_entries_inj_at l); [done..| |done].
  destruct (join_entries_length l Hagree) as (k & Hk & Hlen).
  rewrite Heq in Hlen. specialize (Hk Hin). nia.
Qed.

End Entries.

End StrFacts.

(** ** More about the identifier *)

Section IdentifierFacts.

Implicit Types (b : BaseImageBuilder) (bc : Configuration).

Lemma dependency_tag_suffix bc d cc :
  components bc !! d = Some cc ->
  dependency_tag bc d = Ok (tag_suffix (image_name cc)).
Proof.
  intros Hcc. unfold dependency_tag, tag_suffix. rewrite Hcc.
  destruct (PyFacts.split_last_is_Some ":" (image_name cc)) as [t ->].
  reflexivity.
Qed.

Lemma dependency_tag_ok bc d t :
  dependency_tag bc d = Ok t ->
  exists cc, components bc !! d = Some cc /\ t = tag_suffix (image_name cc).
Proof.
  intros Ht. destruct (components bc !! d) as [cc|] eqn:Hcc.
  - exists cc. rewrite (dependency_tag_suffix _ _ _ Hcc) in Ht. by injection Ht.
  - unfold dependency_tag in Ht. rewrite Hcc in Ht. discriminate.
Qed.

Lemma dependency_tag_entry bc d t :
  dependency_tag bc d = Ok t -> d +:+ t = dependency_entry bc d.
Proof.
  intros (cc & Hcc & ->)%dependency_tag_ok.
  unfold dependency_entry. by rewrite Hcc.
Qed.

(** What the loop has collected when it ends. *)
Lemma deps_join_loop_ok bc deps acc l :
  deps_join_loop bc deps acc = Ok l ->
  l = acc ++ map (dependency_entry bc) deps
  /\ forall d, d ∈ deps -> is_Some (components bc !! d).
Proof.
  revert acc. induction deps as [|d deps IH]; intros acc; simpl.
  - intros [= <-]. split; [by rewrite app_nil_r|]. by intros d ?%elem_of_nil.
  - destruct (dependency_tag bc d) as [t|e] eqn:Ht; [|discriminate].
    intros [-> Hall]%IH. rewrite (dependency_tag_entry _ _ _ Ht).
    split; [by rewrite <- app_assoc|].
    intros d' [->|Hin]%elem_of_cons; [|by apply Hall].
    apply dependency_tag_ok in Ht as (cc & -> & _). eauto.
Qed.

Lemma deps_join_loop_closed bc deps acc :
  (forall d, d ∈ deps -> is_Some (components bc !! d)) ->
  deps_join_loop bc deps acc = Ok (acc ++ map (dependency_entry bc) deps).
Proof.
  intros Hall. destruct (deps_join_loop_present bc deps acc Hall) as [l Hl].
  rewrite Hl. by apply deps_join_loop_ok in Hl as [-> _].
Qed.

(** On a sorted list the loop stops at the least missing name. *)
Lemma deps_join_loop_least bc deps acc e :
  StronglySorted String.le deps ->
  deps_join_loop bc deps acc = Raise e ->
  exists d, e = KeyError d /\ d ∈ deps /\ components bc !! d = None /\
    forall d', d' ∈ deps -> components bc !! d' = None -> String.le d d'.
Proof.
  intros Hsorted. revert acc.
  induction Hsorted as [|d deps Hsorted IH Hle]; intros acc; simpl; [discriminate|].
  destruct (dependency_tag bc d) as [t|e'] eqn:Ht.
  - intros (d0 & -> & Hin & Hnone & Hleast)%IH.
    exists d0. split; [done|]. split; [by right|]. split; [done|].
    intros d' [->|Hd']%elem_of_cons Hmiss; [|by apply Hleast].
    apply dependency_tag_ok in Ht as (cc & Hcc & _). congruence.
  - intros [= <-]. apply dependency_tag_raises in Ht as [-> Hnone].
    exists d. split; [done|]. split; [by left|]. split; [done|].
    intros d' [->|Hd']%elem_of_cons _; [done|].
    rewrite Forall_forall in Hle. by apply Hle.
Qed.

Lemma dependency_entry_suffix bc d :
  dependency_entry bc d = d +:+ suffix_of bc d.
Proof.
  unfold dependency_entry, suffix_of.
  destruct (components bc !! d) as [cc|] eqn:Hcc.
  - by rewrite (dependency_tag_suffix _ _ _ Hcc).
  - unfold dependency_tag. by rewrite Hcc.
Qed.

(** C9: the tag-suffix that goes into the dependencies tag of the
    identifier is, for every declared dependency, what follows the last
    colon of its image name, and the whole image name when that has no
    colon: with every dependency present the identifier is computed (the
    split never fails) and is made of these suffixes. *)
Theorem dependency_tag_after_last_colon dt arg bc b :
  (forall d, d ∈ _dependencies b -> is_Some (components bc !! d)) ->
  outcome (_get_image_name dt (version_argument dt arg) bc) b
  = Ok (repository bc +:+ "/" +:+ _name b +:+ ":"
        +:+ tag_of_request dt arg bc +:+ "_"
        +:+ Py.join "_" (map (fun d => d +:+ suffix_of bc d)
                             (Py.sort (_dependencies b))))
  /\ forall d cc, components bc !! d = Some cc ->
       dependency_tag bc d = Ok (suffix_of bc d)
       /\ (forall pre suf, image_name cc = pre +:+ ":" +:+ suf ->
                           Py.contains ":" suf = false ->
                           suffix_of bc d = suf)
       /\ (Py.contains ":" (image_name cc) = false ->
           suffix_of bc d = image_name cc).
Proof.
  intros Hall. split.
  - unfold outcome. rewrite get_image_name_run. cbn [snd].
    rewrite deps_join_loop_closed.
    + cbn [app]. by rewrite (map_ext _ _ (dependency_entry_suffix bc)).
    + intros d Hd. apply Hall. by apply PyFacts.sort_elem_of.
  - intros d cc Hcc. unfold suffix_of.
    rewrite (dependency_tag_suffix _ _ _ Hcc). split; [reflexivity|].
    unfold tag_suffix. split.
    + intros pre suf Heq Hsuf. rewrite Heq.
      change (":" +:+ suf) with (String ":" suf).
      by rewrite (PyFacts.split_last_suffix _ _ _ Hsuf).
    + intros Hno. by rewrite (PyFacts.split_last_whole _ _ Hno).
Qed.

(** X4: the identifier is computed exactly when every declared
    dependency has an entry in [built_config.components]. *)
Theorem identifier_computed_iff_dependencies_present dt arg bc b :
  (exists image,
      outcome (_get_image_name dt (version_argument dt arg) bc) b = Ok image)
  <-> forall d, d ∈ _dependencies b -> is_Some (components bc !! d).
Proof.
  unfold outcome. rewrite get_image_name_run. cbn [snd]. split.
  - intros [image Himg] d Hd.
    destruct (deps_join_loop bc _ []) as [l|e] eqn:Hloop; [|discriminate].
    apply deps_join_loop_ok in Hloop as [_ Hall].
    apply Hall. by apply PyFacts.sort_elem_of.
  - intros Hall. rewrite deps_join_loop_closed; [eauto|].
    intros d Hd. apply Hall. by apply PyFacts.sort_elem_of.
Qed.

(** X5: when every declared dependency has an entry, the identifier is
    [repository/name:tag_] followed by the entries of the dependencies in
    sorted order, joined by underscores, the entry of a dependency being
    its name followed by what comes after the last colon of its image
    name. *)
Theorem identifier_closed_form dt arg bc b :
  (forall d, d ∈ _dependencies b -> is_Some (components bc !! d)) ->
  outcome (_get_image_name dt (version_argument dt arg) bc) b
  = Ok (repository bc +:+ "/" +:+ _name b +:+ ":" +:+ tag_of_request dt arg bc
        +:+ "_" +:+ Py.join "_" (map (dependency_entry bc)
                                     (Py.sort (_dependencies b)))).
Proof.
  intros Hall. unfold outcome. rewrite get_image_name_run. cbn [snd].
  rewrite deps_join_loop_closed; [reflexivity|].
  intros d Hd. apply Hall. by apply PyFacts.sort_elem_of.
Qed.

(** X6: when the identifier cannot be computed, the exception is the
    [KeyError] of the least (in code-point order) declared dependency
    that has no entry, whatever the declaration order. *)
Theorem key_error_names_least_missing_dependency dt arg bc b e :
  outcome (_get_image_name dt (version_argument dt arg) bc) b = Raise e ->
  exists d, e = KeyError d /\ d ∈ _dependencies b /\
    components bc !! d = None /\
    forall d', d' ∈ _dependencies b -> components bc !! d' = None ->
               String.le d d'.
Proof.
  unfold outcome. rewrite get_image_name_run. cbn [snd].
  destruct (deps_join_loop bc _ []) as [l|e'] eqn:Hloop; [discriminate|].
  intros [= ->].
  apply deps_join_loop_least in Hloop as (d & -> & Hin & Hnone & Hleast).
  - exists d. split; [done|]. split; [by apply PyFacts.sort_elem_of|].
    split; [done|]. intros d' Hd'. apply Hleast. by apply PyFacts.sort_elem_of.
  - apply Sorted_StronglySorted; [apply _|apply PyFacts.sort_Sorted].
Qed.

(** X7: rebuilding one dependency under another tag changes the
    identifier of the component.  Two configurations with the same
    repository and component tag, whose dependency tags agree except for
    one declared dependency, never give the same identifier. *)
Theorem changed_dependency_tag_changes_identifier
    dt v bc1 bc2 b d t1 t2 i1 i2 :
  repository bc1 = repository bc2 ->
  component_tag dt v bc1 = component_tag dt v bc2 ->
  d ∈ _dependencies b ->
  (forall x, x ∈ _dependencies b -> x <> d ->
             dependency_tag bc1 x = dependency_tag bc2 x) ->
  dependency_tag bc1 d = Ok t1 ->
  dependency_tag bc2 d = Ok t2 ->
  t1 <> t2 ->
  outcome (_get_image_name dt v bc1) b = Ok i1 ->
  outcome (_get_image_name dt v bc2) b = Ok i2 ->
  i1 <> i2.
Proof.
  intros Hrepo Htag Hin Hagree Ht1 Ht2 Hdiff. unfold outcome.
  rewrite !get_image_name_unfold, <- Htag, <- Hrepo. cbn [self].
  destruct (component_tag dt v bc1) as [ctag|]; [|discriminate]. cbn zeta.
  destruct (deps_join_loop bc1 _ []) as [l1|] eqn:H1; [|discriminate].
  destruct (deps_join_loop bc2 _ []) as [l2|] eqn:H2; [|discriminate].
  apply deps_join_loop_ok in H1 as [-> _]. apply deps_join_loop_ok in H2 as [-> _].
  cbn [snd app]. intros [= <-] [= <-]. unfold format_template. intros Heq.
  do 6 apply (inj (String.app _)) in Heq. revert Heq.
  rewrite (map_ext _ _ (dependency_entry_suffix bc1)).
  rewrite (map_ext _ _ (dependency_entry_suffix bc2)).
  apply (StrFacts.join_entries_differ (suffix_of bc1) (suffix_of bc2) "_" d).
  - intros x Hx Hne. unfold suffix_of. rewrite Hagree; [done| |done].
    by apply PyFacts.sort_elem_of.
  - by apply PyFacts.sort_elem_of.
  - unfold suffix_of. rewrite Ht1, Ht2. exact Hdiff.
Qed.

(** X8: the tag-suffix taken from a dependency never contains a colon. *)
Theorem dependency_tag_has_no_colon bc d t :
  dependency_tag bc d = Ok t -> Py.contains ":" t = false.
Proof.
  intros (cc & _ & ->)%dependency_tag_ok. unfold tag_suffix.
  destruct (last (Py.split ":" (image_name cc))) as [t|] eqn:Hlast;
    [|reflexivity].
  apply (StrFacts.split_pieces_without_sep ":" (image_name cc)).
  apply last_Some in Hlast as [l' ->]. apply elem_of_app. right. by left.
Qed.

(** X9: the identifier feeds the next component.  When neither the
    component tag nor a dependency name contains a colon, what follows
    the last colon of the identifier is the whole tag, the tags of the
    component's own dependencies included; a colon in the repository or
    in the component name does no harm. *)
Theorem identifier_tag_suffix dt arg bc b image :
  outcome (_get_image_name dt (version_argument dt arg) bc) b = Ok image ->
  Py.contains ":" (tag_of_request dt arg bc) = false ->
  (forall d, d ∈ _dependencies b -> Py.contains ":" d = false) ->
  tag_suffix image
  = tag_of_request dt arg bc +:+ "_"
    +:+ Py.join "_" (map (dependency_entry bc) (Py.sort (_dependencies b))).
Proof.
  intros Himg Htag Hnames.
  assert (Hall : forall d, d ∈ _dependencies b -> is_Some (components bc !! d)).
  { apply identifier_computed_iff_dependencies_present with dt arg. eauto. }
  rewrite (identifier_closed_form dt arg bc b Hall) in Himg.
  injection Himg as <-. unfold tag_suffix.
  set (rest := tag_of_request dt arg bc +:+ "_" +:+ _).
  assert (Hshape : repository bc +:+ "/" +:+ _name b +:+ ":" +:+ rest
                   = (repository bc +:+ "/" +:+ _name b) +:+ String ":" rest).
  { rewrite !StrFacts.app_assoc. reflexivity. }
  rewrite Hshape, PyFacts.split_last_suffix; [reflexivity|].
  subst rest. rewrite !StrFacts.contains_app, Htag. cbn [orb].
  apply StrFacts.join_without; [reflexivity|].
  apply Forall_forall. intros entry (d & -> & Hd)%list_elem_of_fmap.
  apply (proj1 (PyFacts.sort_elem_of _ _)) in Hd.
  rewrite dependency_entry_suffix, StrFacts.contains_app, (Hnames d Hd).
  cbn [orb]. unfold suffix_of.
  destruct (dependency_tag bc d) as [t|] eqn:Ht; [|reflexivity].
  by apply dependency_tag_has_no_colon in Ht.
Qed.

(** X10: a component without dependencies needs nothing of
    [built_config.components]; its identifier ends with the underscore
    of the template. *)
Theorem identifier_without_dependencies dt arg bc b :
  _dependencies b = [] ->
  outcome (_get_image_name dt (version_argument dt arg) bc) b
  = Ok (repository bc +:+ "/" +:+ _name b +:+ ":" +:+ tag_of_request dt arg bc
        +:+ "_").
Proof.
  intros Hnil. unfold outcome. rewrite get_image_name_run, Hnil. reflexivity.
Qed.

End IdentifierFacts.

(** ** More about [build] *)

Section BuildExact.

Variable ext : Externals.
Implicit Types (b : BaseImageBuilder) (bc : Configuration) (s : St).

(** The rebuild branch against its closed form. *)
Lemma rebuild_exact dt arg image bc s :
  rebuild ext dt arg image bc s =
  (mkSt (self s) (events s ++ rebuild_events ext (self s) bc dt arg image),
   rebuild_outcome ext (self s) bc dt arg image).
Proof.
  unfold rebuild, TmpDirHandler, with_handler, _get_resource_dir,
    _prepare_tarfile_release, _prepare_tarfile_snapshot, _build_docker_image,
    name, bind, lift, emit, get_self, ret,
    rebuild_events, rebuild_outcome, prepare_events, prepare_outcome,
    release_url, tarball, scratch_dir.
  simpl. destruct (tmp_dir_enter ext _) as [tmp|e]; simpl; [|reflexivity].
  destruct dt; simpl.
  - destruct (str_format ext _ _) as [url|e]; simpl;
      [|rewrite <- ?app_assoc; reflexivity].
    destruct (wget_download ext _ _) as [[]|e]; simpl;
      [destruct (docker_images_build ext _ _) as [[]|e]; simpl|];
      rewrite <- ?app_assoc; reflexivity.
  - destruct (tarfile_add ext _ _ _) as [[]|e]; simpl;
      [destruct (docker_images_build ext _ _) as [[]|e]; simpl|];
      rewrite <- ?app_assoc; reflexivity.
Qed.

(** [build] against its closed form, once the identifier is there. *)
Lemma build_exact cfg bc force b dt arg image :
  dist_type_and_arg ext cfg = Ok (dt, arg) ->
  outcome (_get_image_name dt (version_argument dt arg) bc) b = Ok image ->
  build ext cfg bc force (mkSt b []) =
  let b' := set_dependencies b (Py.sort (_dependencies b)) in
  let after_rebuild :=
    match rebuild_outcome ext b bc dt arg image with
    | Ok _ => Ok (returned_config b dt arg image)
    | Raise e => Raise e
    end in
  if checks_existence force dt then
    if image_exists_locally ext image then
      (mkSt b' [EvImageExists image;
                EvPrint ("Reusing existing " +:+ _name b +:+ " image: "
                         +:+ image +:+ ".")],
       Ok (returned_config b dt arg image))
    else (mkSt b' (EvImageExists image :: rebuild_events ext b bc dt arg image),
          after_rebuild)
  else (mkSt b' (rebuild_events ext b bc dt arg image), after_rebuild).
Proof.
  intros Hd Himg. unfold outcome in Himg.
  rewrite build_unfold, Hd. rewrite get_image_name_run in *. cbn [snd] in Himg.
  cbn zeta. destruct (deps_join_loop _ _ _) as [l|e]; [|discriminate].
  injection Himg as Himg. rewrite Himg.
  rewrite reuse_existing_image_unfold. cbn [self events].
  fold (checks_existence force dt). unfold returned_config.
  destruct (checks_existence force dt) eqn:Hgate.
  - destruct (image_exists_locally ext image).
    + rewrite print_reusing_unfold. simpl.
      destruct dt; [reflexivity|by destruct force].
    + rewrite rebuild_exact. cbn [self events app].
      change (rebuild_outcome ext (set_dependencies b _) bc dt arg image)
        with (rebuild_outcome ext b bc dt arg image).
      change (rebuild_events ext (set_dependencies b _) bc dt arg image)
        with (rebuild_events ext b bc dt arg image).
      destruct (rebuild_outcome ext b bc dt arg image); [|reflexivity].
      destruct dt; reflexivity.
  - rewrite rebuild_exact. cbn [self events app].
    change (rebuild_outcome ext (set_dependencies b _) bc dt arg image)
      with (rebuild_outcome ext b bc dt arg image).
    change (rebuild_events ext (set_dependencies b _) bc dt arg image)
      with (rebuild_events ext b bc dt arg image).
    destruct (rebuild_outcome ext b bc dt arg image); [|reflexivity].
    destruct dt; reflexivity.
Qed.

(** [build] sees of the builder its name, its template, its extractor
    and the elements of its dependency list, nothing else. *)
Lemma build_congruence cfg bc force b1 b2 :
  _name b1 = _name b2 ->
  _url_template b1 = _url_template b2 ->
  _version_from_image_name b1 = _version_from_image_name b2 ->
  _dependencies b1 ≡ₚ _dependencies b2 ->
  outcome (build ext cfg bc force) b1 = outcome (build ext cfg bc force) b2
  /\ trace_of (build ext cfg bc force) b1 = trace_of (build ext cfg bc force) b2.
Proof.
  intros Hn Hu Hv Hp. unfold outcome, trace_of. rewrite !build_unfold.
  destruct (dist_type_and_arg ext cfg) as [[dt arg]|e]; [|done].
  rewrite !get_image_name_run. cbn zeta.
  assert (set_dependencies b1 (Py.sort (_dependencies b1))
          = set_dependencies b2 (Py.sort (_dependencies b2))) as ->.
  { unfold set_dependencies.
    by rewrite Hn, Hu, Hv, (PyFacts.sort_permuted _ _ Hp). }
  by rewrite Hn, (PyFacts.sort_permuted _ _ Hp).
Qed.

End BuildExact.

Section BuildBehaviour.

Variable ext : Externals.
Implicit Types (b : BaseImageBuilder) (bc : Configuration).

Local Ltac not_in_list H :=
  repeat (apply elem_of_cons in H as [H|H]; [discriminate|]);
  by apply elem_of_nil in H.

Lemma checks_existence_true force dt :
  checks_existence force dt = true <-> force = false /\ dt = RELEASE.
Proof. unfold checks_existence. destruct force, dt; simpl; split; try done; by intros []. Qed.

Lemma not_reuse_condition force dt image :
  ~ reuse_condition ext force dt image ->
  checks_existence force dt = true ->
  image_exists_locally ext image = false.
Proof.
  intros Hnot [-> ->]%checks_existence_true.
  destruct (image_exists_locally ext image) eqn:Hex; [|done].
  by destruct Hnot.
Qed.

Lemma prepare_events_no_docker b dt arg tmp p t :
  EvDockerBuild p t ∉ prepare_events ext b dt arg tmp.
Proof.
  intros Hin. unfold prepare_events in Hin.
  destruct dt;
    [destruct (release_url ext b arg) as [url|];
       [destruct (wget_download ext url _)|]|];
    simpl in Hin; not_in_list Hin.
Qed.

Lemma prepare_events_body b dt arg tmp :
  Forall (fun e => is_handler_event e = false /\ is_existence_check e = false)
    (prepare_events ext b dt arg tmp).
Proof.
  unfold prepare_events.
  destruct dt;
    [destruct (release_url ext b arg) as [url|];
       [destruct (wget_download ext url _)|]|];
    simpl; repeat constructor.
Qed.

(** X1: whatever a call to [build] does and however it ends, the
    builder keeps its name, its URL template and its version extractor,
    and its dependency list keeps its elements. *)
Theorem build_preserves_builder cfg bc force b :
  let b' := builder_after (build ext cfg bc force) b in
  _name b' = _name b
  /\ _url_template b' = _url_template b
  /\ _version_from_image_name b' = _version_from_image_name b
  /\ _dependencies b' ≡ₚ _dependencies b.
Proof.
  cbn zeta. rewrite builder_after_build.
  destruct (dist_type_and_arg ext cfg); cbn [set_dependencies _name
    _url_template _version_from_image_name _dependencies];
    repeat split; try done.
  apply PyFacts.sort_Permutation.
Qed.

(** X2: the order in which the dependencies are declared shows in
    nothing that [build] does: two builders that differ in that order
    only get the same result and cause the same events. *)
Theorem build_independent_of_declaration_order cfg bc force b1 b2 :
  _name b1 = _name b2 ->
  _url_template b1 = _url_template b2 ->
  _version_from_image_name b1 = _version_from_image_name b2 ->
  _dependencies b1 ≡ₚ _dependencies b2 ->
  outcome (build ext cfg bc force) b1 = outcome (build ext cfg bc force) b2
  /\ trace_of (build ext cfg bc force) b1 = trace_of (build ext cfg bc force) b2.
Proof. apply build_congruence. Qed.

(** X3: the sort that an earlier call left in the builder changes no
    later call: [build] on the builder as an earlier call left it does
    what it does on the builder as declared. *)
Theorem build_after_build cfg0 bc0 force0 cfg bc force b :
  let b' := builder_after (build ext cfg0 bc0 force0) b in
  outcome (build ext cfg bc force) b' = outcome (build ext cfg bc force) b
  /\ trace_of (build ext cfg bc force) b' = trace_of (build ext cfg bc force) b.
Proof.
  cbn zeta. apply build_congruence; rewrite builder_after_build;
    destruct (dist_type_and_arg ext cfg0); try reflexivity.
  apply PyFacts.sort_Permutation.
Qed.

(** X11: the existence check is made only when the build is not forced
    and the dist type is RELEASE, only for the computed identifier, and
    then before anything else. *)
Theorem existence_check_only_for_unforced_release
    cfg bc force b dt arg image :
  dist_type_and_arg ext cfg = Ok (dt, arg) ->
  outcome (_get_image_name dt (version_argument dt arg) bc) b = Ok image ->
  let tr := trace_of (build ext cfg bc force) b in
  (forall i, EvImageExists i ∈ tr <->
             i = image /\ force = false /\ dt = RELEASE)
  /\ (force = false -> dt = RELEASE -> head tr = Some (EvImageExists image))
  /\ Forall (fun e => is_existence_check e = false) (tail tr).
Proof.
  intros Hd Himg tr. subst tr. unfold trace_of.
  rewrite (build_exact ext cfg bc force b dt arg image Hd Himg). cbn zeta.
  assert (Hno : forall i, EvImageExists i ∉ rebuild_events ext b bc dt arg image).
  { intros i Hin. unfold rebuild_events in Hin.
    pose proof (prepare_events_body b dt arg) as Hbody.
    apply elem_of_cons in Hin as [?|Hin]; [done|].
    destruct (tmp_dir_enter ext _) as [tmp|]; [|by apply elem_of_nil in Hin].
    rewrite !elem_of_app in Hin. destruct Hin as [Hin|[Hin|Hin]].
    - specialize (Hbody tmp). rewrite Forall_forall in Hbody.
      by destruct (Hbody _ Hin).
    - destruct (prepare_outcome ext b dt arg tmp); not_in_list Hin.
    - not_in_list Hin. }
  assert (Hall : Forall (fun e => is_existence_check e = false)
                   (rebuild_events ext b bc dt arg image)).
  { apply Forall_forall. intros [] Hin; try reflexivity. by destruct (Hno _ Hin). }
  destruct (checks_existence force dt) eqn:Hgate.
  - apply checks_existence_true in Hgate as [-> ->].
    destruct (image_exists_locally ext image); cbn [fst events].
    + split; [|split]; [|done|repeat constructor].
      intros i. rewrite !elem_of_cons, elem_of_nil. split.
      * intros [[= ->]|[?|[]]]; done.
      * intros (-> & _). by left.
    + split; [|split]; [|done|exact Hall].
      intros i. rewrite elem_of_cons. split.
      * intros [[= ->]|Hin]; [done|by destruct (Hno _ Hin)].
      * intros (-> & _). by left.
  - cbn [fst events]. split; [|split].
    + intros i. split; [intros Hin; by destruct (Hno _ Hin)|].
      intros (_ & Hf & Hr).
      assert (checks_existence force dt = true) by by apply checks_existence_true.
      congruence.
    + intros Hf Hr.
      assert (checks_existence force dt = true) by by apply checks_existence_true.
      congruence.
    + by apply Forall_tail.
Qed.

(** X12: when the preparation of the archive fails (the download of a
    RELEASE, the packing of a SNAPSHOT), [build] ends with that
    exception, the docker build is not started, and the handler of the
    scratch directory is left as the last thing. *)
Theorem failed_preparation_skips_docker_build
    cfg bc force b dt arg image tmp e :
  dist_type_and_arg ext cfg = Ok (dt, arg) ->
  outcome (_get_image_name dt (version_argument dt arg) bc) b = Ok image ->
  ~ reuse_condition ext force dt image ->
  tmp_dir_enter ext (scratch_dir ext bc b) = Ok tmp ->
  prepare_outcome ext b dt arg tmp = Raise e ->
  outcome (build ext cfg bc force) b = Raise e
  /\ (forall p t, EvDockerBuild p t ∉ trace_of (build ext cfg bc force) b)
  /\ last (trace_of (build ext cfg bc force) b)
     = Some (EvTmpDirExit (scratch_dir ext bc b)).
Proof.
  intros Hd Himg Hnot Henter Hprep. unfold outcome, trace_of.
  rewrite (build_exact ext cfg bc force b dt arg image Hd Himg). cbn zeta.
  unfold rebuild_outcome, rebuild_events. rewrite Henter, Hprep.
  rewrite app_nil_l.
  assert (Hlast : forall pre,
            last (pre ++ EvTmpDirEnter (scratch_dir ext bc b)
                  :: prepare_events ext b dt arg tmp
                  ++ [EvTmpDirExit (scratch_dir ext bc b)])
            = Some (EvTmpDirExit (scratch_dir ext bc b))).
  { intros pre. by rewrite app_comm_cons, app_assoc, last_snoc. }
  assert (Hdock : forall p t,
            EvDockerBuild p t ∉ EvTmpDirEnter (scratch_dir ext bc b)
              :: prepare_events ext b dt arg tmp
              ++ [EvTmpDirExit (scratch_dir ext bc b)]).
  { intros p t [?|Hin]%elem_of_cons; [done|].
    apply elem_of_app in Hin as [Hin|Hin]; [|not_in_list Hin].
    by apply prepare_events_no_docker in Hin. }
  destruct (checks_existence force dt) eqn:Hgate.
  - destruct (image_exists_locally ext image) eqn:Hex.
    + by rewrite (not_reuse_condition _ _ _ Hnot Hgate) in Hex.
    + cbn [fst snd events]. split; [done|]. split.
      * intros p t [?|Hin]%elem_of_cons; [done|]. by apply Hdock in Hin.
      * apply (Hlast [EvImageExists image]).
  - cbn [fst snd events]. split; [done|]. split; [exact Hdock|apply (Hlast [])].
Qed.

(** X13: when the docker build fails, [build] ends with that exception
    and returns no [ComponentConfig]; the build was started once, with
    the resource directory and the computed identifier, and the handler
    of the scratch directory is left as the last thing. *)
Theorem failed_docker_build_propagates
    cfg bc force b dt arg image tmp e :
  dist_type_and_arg ext cfg = Ok (dt, arg) ->
  outcome (_get_image_name dt (version_argument dt arg) bc) b = Ok image ->
  ~ reuse_condition ext force dt image ->
  tmp_dir_enter ext (scratch_dir ext bc b) = Ok tmp ->
  prepare_outcome ext b dt arg tmp = Ok tt ->
  docker_images_build ext (scratch_dir ext bc b) image = Raise e ->
  outcome (build ext cfg bc force) b = Raise e
  /\ (forall p t, EvDockerBuild p t ∈ trace_of (build ext cfg bc force) b ->
                  p = scratch_dir ext bc b /\ t = image)
  /\ EvDockerBuild (scratch_dir ext bc b) image
     ∈ trace_of (build ext cfg bc force) b
  /\ last (trace_of (build ext cfg bc force) b)
     = Some (EvTmpDirExit (scratch_dir ext bc b)).
Proof.
  intros Hd Himg Hnot Henter Hprep Hdocker. unfold outcome, trace_of.
  rewrite (build_exact ext cfg bc force b dt arg image Hd Himg). cbn zeta.
  unfold rebuild_outcome, rebuild_events. rewrite Henter, Hprep, Hdocker.
  set (dir := scratch_dir ext bc b) in *.
  set (evs := EvTmpDirEnter dir :: prepare_events ext b dt arg tmp
              ++ [EvPrint _; EvDockerBuild dir image] ++ [EvTmpDirExit dir]).
  assert (Hlast : forall pre, last (pre ++ evs) = Some (EvTmpDirExit dir)).
  { intros pre. subst evs.
    by rewrite app_comm_cons, (app_assoc _ [_; _]), !app_assoc, last_snoc. }
  assert (Hin : EvDockerBuild dir image ∈ evs).
  { subst evs. rewrite elem_of_cons, !elem_of_app, !elem_of_cons. auto 10. }
  assert (Honly : forall p t, EvDockerBuild p t ∈ evs -> p = dir /\ t = image).
  { subst evs. intros p t [?|H]%elem_of_cons; [done|].
    apply elem_of_app in H as [H|H];
      [by apply prepare_events_no_docker in H|].
    apply elem_of_cons in H as [?|H]; [done|].
    apply elem_of_cons in H as [[= -> ->]|H]; [done|]. not_in_list H. }
  destruct (checks_existence force dt) eqn:Hgate.
  - destruct (image_exists_locally ext image) eqn:Hex.
    + by rewrite (not_reuse_condition _ _ _ Hnot Hgate) in Hex.
    + cbn [fst snd events]. split; [done|]. split; [|split].
      * intros p t [?|H]%elem_of_cons; [done|by apply Honly].
      * by right.
      * apply (Hlast [EvImageExists image]).
  - cbn [fst snd events]. split; [done|]. split; [exact Honly|].
    split; [exact Hin|apply (Hlast [])].
Qed.

(** X14: when the scratch directory handler cannot be entered, [build]
    ends with that exception and neither prepares an archive, nor starts
    a docker build, nor runs the exit of the handler. *)
Theorem failed_enter_runs_nothing cfg bc force b dt arg image e :
  dist_type_and_arg ext cfg = Ok (dt, arg) ->
  outcome (_get_image_name dt (version_argument dt arg) bc) b = Ok image ->
  ~ reuse_condition ext force dt image ->
  tmp_dir_enter ext (scratch_dir ext bc b) = Raise e ->
  outcome (build ext cfg bc force) b = Raise e
  /\ last (trace_of (build ext cfg bc force) b)
     = Some (EvTmpDirEnter (scratch_dir ext bc b))
  /\ Forall (fun ev => is_body_effect ev = false)
       (trace_of (build ext cfg bc force) b)
  /\ (forall dir, EvTmpDirExit dir ∉ trace_of (build ext cfg bc force) b).
Proof.
  intros Hd Himg Hnot Henter. unfold outcome, trace_of.
  rewrite (build_exact ext cfg bc force b dt arg image Hd Himg). cbn zeta.
  unfold rebuild_outcome, rebuild_events. rewrite Henter.
  destruct (checks_existence force dt) eqn:Hgate.
  - destruct (image_exists_locally ext image) eqn:Hex.
    + by rewrite (not_reuse_condition _ _ _ Hnot Hgate) in Hex.
    + cbn [fst snd events]. split; [done|]. split; [done|].
      split; [repeat constructor|]. intros dir Hin. not_in_list Hin.
  - cbn [fst snd events]. split; [done|]. split; [done|].
    split; [repeat constructor|]. intros dir Hin. not_in_list Hin.
Qed.

(** X15: a [build] that returns has either found the image (not forced,
    RELEASE, the image exists under the returned name, and nothing was
    built), or it has entered the scratch directory, prepared the
    archive and run a docker build that succeeded, with the resource
    directory as path and the returned name as tag. *)
Theorem successful_build_has_image cfg bc force b cc :
  outcome (build ext cfg bc force) b = Ok cc ->
  let tr := trace_of (build ext cfg bc force) b in
  let dir := scratch_dir ext bc b in
  (reuse_condition ext force (dist_type cc) (image_name cc)
   /\ Forall (fun e => is_build_effect e = false) tr)
  \/ (~ reuse_condition ext force (dist_type cc) (image_name cc)
      /\ EvDockerBuild dir (image_name cc) ∈ tr
      /\ docker_images_build ext dir (image_name cc) = Ok tt
      /\ exists arg tmp,
           dist_type_and_arg ext cfg = Ok (dist_type cc, arg)
           /\ tmp_dir_enter ext dir = Ok tmp
           /\ prepare_outcome ext b (dist_type cc) arg tmp = Ok tt).
Proof.
  intros Hcc tr dir. subst tr dir. unfold outcome, trace_of in *.
  destruct (dist_type_and_arg ext cfg) as [[dt arg]|e] eqn:Hd.
  2:{ rewrite build_unfold, Hd in Hcc. discriminate. }
  destruct (outcome (_get_image_name dt (version_argument dt arg) bc) b)
    as [image|e] eqn:Himg.
  2:{ pose proof (build_run ext cfg bc force b dt arg Hd) as Hrun.
      cbn zeta in Hrun. rewrite Himg in Hrun. rewrite Hrun in Hcc.
      discriminate. }
  rewrite (build_exact ext cfg bc force b dt arg image Hd Himg) in *.
  cbn zeta in *.
  assert (Hrebuilt :
    match rebuild_outcome ext b bc dt arg image with
    | Ok _ => Ok (returned_config b dt arg image)
    | Raise e => Raise e
    end = Ok cc ->
    dist_type cc = dt /\ image_name cc = image
    /\ (forall pre, EvDockerBuild (scratch_dir ext bc b) image
                      ∈ pre ++ rebuild_events ext b bc dt arg image)
    /\ docker_images_build ext (scratch_dir ext bc b) image = Ok tt
    /\ exists tmp,
         tmp_dir_enter ext (scratch_dir ext bc b) = Ok tmp
         /\ prepare_outcome ext b dt arg tmp = Ok tt).
  { unfold rebuild_outcome, rebuild_events.
    destruct (tmp_dir_enter ext _) as [tmp|]; [|discriminate].
    destruct (prepare_outcome ext b dt arg tmp) as [[]|] eqn:Hprep;
      [|discriminate].
    destruct (docker_images_build ext _ image) as [[]|] eqn:Hdocker;
      [|discriminate].
    intros [= <-]. cbn [returned_config image_name dist_type].
    split; [done|]. split; [done|]. split; [|split; [done|by exists tmp]].
    intros pre.
    rewrite elem_of_app, elem_of_cons, !elem_of_app, !elem_of_cons. auto 10. }
  destruct (checks_existence force dt) eqn:Hgate.
  - destruct (image_exists_locally ext image) eqn:Hex; cbn [fst snd events] in *.
    + left. injection Hcc as <-. cbn [returned_config image_name dist_type].
      split; [|repeat constructor].
      apply checks_existence_true in Hgate as [-> ->]. done.
    + right. destruct (Hrebuilt Hcc) as (-> & -> & Hin & Hdocker & tmp & ? & ?).
      split; [intros (_ & _ & ?); congruence|].
      split; [apply (Hin [EvImageExists _])|]. split; [done|].
      by exists arg, tmp.
  - right. cbn [fst snd events] in *.
    destruct (Hrebuilt Hcc) as (-> & -> & Hin & Hdocker & tmp & ? & ?).
    split.
    + intros (Hf & Hr & _).
      apply (conj Hf) in Hr. apply checks_existence_true in Hr. congruence.
    + split; [apply (Hin [])|]. split; [done|]. by exists arg, tmp.
Qed.

(** X16: every event of a download, of a packing and of a docker build
    lies between the enter and the exit of the scratch directory
    handler, which is entered at most once in a call and is never left
    open once entered. *)
Theorem effects_only_inside_handler cfg bc force b :
  exists pre body,
    Forall (fun e => is_build_effect e = false) pre
    /\ Forall (fun e => is_handler_event e = false
                        /\ is_existence_check e = false) body
    /\ (trace_of (build ext cfg bc force) b = pre
        \/ (trace_of (build ext cfg bc force) b
            = pre ++ [EvTmpDirEnter (scratch_dir ext bc b)]
            /\ exists e, tmp_dir_enter ext (scratch_dir ext bc b) = Raise e)
        \/ trace_of (build ext cfg bc force) b
           = pre ++ EvTmpDirEnter (scratch_dir ext bc b)
                 :: body ++ [EvTmpDirExit (scratch_dir ext bc b)]).
Proof.
  unfold trace_of.
  destruct (dist_type_and_arg ext cfg) as [[dt arg]|e] eqn:Hd.
  2:{ exists [], []. rewrite build_unfold, Hd. split; [constructor|].
      split; [constructor|]. by left. }
  destruct (outcome (_get_image_name dt (version_argument dt arg) bc) b)
    as [image|e] eqn:Himg.
  2:{ pose proof (build_run ext cfg bc force b dt arg Hd) as Hrun.
      cbn zeta in Hrun. rewrite Himg in Hrun. rewrite Hrun.
      exists [], []. split; [constructor|]. split; [constructor|]. by left. }
  rewrite (build_exact ext cfg bc force b dt arg image Hd Himg). cbn zeta.
  assert (Hshape : forall pre,
    exists body,
      Forall (fun e => is_handler_event e = false
                       /\ is_existence_check e = false) body
      /\ ((pre ++ rebuild_events ext b bc dt arg image
           = pre ++ [EvTmpDirEnter (scratch_dir ext bc b)]
           /\ exists e, tmp_dir_enter ext (scratch_dir ext bc b) = Raise e)
          \/ pre ++ rebuild_events ext b bc dt arg image
             = pre ++ EvTmpDirEnter (scratch_dir ext bc b)
                   :: body ++ [EvTmpDirExit (scratch_dir ext bc b)])).
  { intros pre. unfold rebuild_events. cbn zeta.
    destruct (tmp_dir_enter ext _) as [tmp|e].
    - eexists. split; [|right; rewrite app_assoc; reflexivity].
      apply Forall_app. split; [apply prepare_events_body|].
      destruct (prepare_outcome ext b dt arg tmp); repeat constructor.
    - exists []. split; [constructor|]. left. eauto. }
  destruct (checks_existence force dt).
  - destruct (image_exists_locally ext image); cbn [fst events].
    + eexists _, []. split; [|split; [constructor|by left]]. repeat constructor.
    + destruct (Hshape [EvImageExists image]) as (body & Hbody & Hcases).
      exists [EvImageExists image], body.
      split; [repeat constructor|]. split; [done|]. by right.
  - cbn [fst events]. destruct (Hshape []) as (body & Hbody & Hcases).
    exists [], body. split; [constructor|]. split; [done|]. by right.
Qed.

(** X17: nothing leaves the process before the identifier has been
    computed, and something always does once it has: the event log of a
    call is empty exactly when the dist type or the identifier could not
    be determined. *)
Theorem no_effect_before_identifier cfg bc force b :
  trace_of (build ext cfg bc force) b = [] <->
  ~ exists dt arg image,
      dist_type_and_arg ext cfg = Ok (dt, arg)
      /\ outcome (_get_image_name dt (version_argument dt arg) bc) b = Ok image.
Proof.
  unfold trace_of.
  destruct (dist_type_and_arg ext cfg) as [[dt arg]|e] eqn:Hd.
  2:{ rewrite build_unfold, Hd. split; [|done].
      intros _ (? & ? & ? & ? & _). discriminate. }
  destruct (outcome (_get_image_name dt (version_argument dt arg) bc) b)
    as [image|e] eqn:Himg.
  2:{ pose proof (build_run ext cfg bc force b dt arg Hd) as Hrun.
      cbn zeta in Hrun. rewrite Himg in Hrun. rewrite Hrun. split; [|done].
      intros _ (? & ? & ? & [= <- <-] & ?). congruence. }
  rewrite (build_exact ext cfg bc force b dt arg image Hd Himg). cbn zeta.
  split.
  - unfold rebuild_events.
    destruct (checks_existence force dt);
      [destruct (image_exists_locally ext image)|]; discriminate.
  - intros Hnot. destruct Hnot. by exists dt, arg, image.
Qed.

(** C3: once the identifier has been computed, [build] takes the reuse
    path exactly when [force_rebuild] is false, the dist type is RELEASE
    and the image exists locally under that identifier, and then it does
    the existence check, prints the message and returns, nothing else.
    In every other case it rebuilds: after the existence check, if one
    is made, the events are those of the rebuild branch (the handler,
    the preparation of the archive, the docker build) and the result is
    the result of that branch. *)
Theorem reuse_iff_not_forced_release_existing
    cfg bc force b dt arg image :
  dist_type_and_arg ext cfg = Ok (dt, arg) ->
  outcome (_get_image_name dt (version_argument dt arg) bc) b = Ok image ->
  let tr := trace_of (build ext cfg bc force) b in
  let res := outcome (build ext cfg bc force) b in
  (reused b image tr <-> reuse_condition ext force dt image)
  /\ (rebuilt ext bc b tr <-> ~ reuse_condition ext force dt image)
  /\ (reuse_condition ext force dt image ->
      tr = [EvImageExists image;
            EvPrint ("Reusing existing " +:+ _name b +:+ " image: "
                     +:+ image +:+ ".")]
      /\ res = Ok (returned_config b dt arg image))
  /\ (~ reuse_condition ext force dt image ->
      tr = (if checks_existence force dt then [EvImageExists image] else [])
           ++ rebuild_events ext b bc dt arg image
      /\ res = match rebuild_outcome ext b bc dt arg image with
               | Ok _ => Ok (returned_config b dt arg image)
               | Raise e => Raise e
               end).
Proof.
  intros Hd Himg tr res. subst tr res. unfold trace_of, outcome.
  rewrite (build_exact ext cfg bc force b dt arg image Hd Himg). cbn zeta.
  assert (Henter : forall pre,
            EvTmpDirEnter (scratch_dir ext bc b)
              ∈ pre ++ rebuild_events ext b bc dt arg image).
  { intros pre. unfold rebuild_events. rewrite elem_of_app, elem_of_cons. auto. }
  assert (Hnot_reused : forall pre,
            ~ reused b image (pre ++ rebuild_events ext b bc dt arg image)).
  { intros pre [_ Hall]. unfold rebuild_events in Hall.
    rewrite Forall_app, Forall_cons in Hall.
    destruct Hall as [_ [Hbad _]]. discriminate. }
  destruct (checks_existence force dt) eqn:Hgate.
  - destruct (image_exists_locally ext image) eqn:Hex; cbn [fst snd events].
    + assert (Hyes : reuse_condition ext force dt image).
      { apply checks_existence_true in Hgate as [-> ->]. done. }
      split; [|split; [|split]].
      * split; [done|]. intros _. split; [|repeat constructor].
        rewrite !elem_of_cons. auto.
      * split; [|done]. unfold rebuilt. intros Hin.
        rewrite !elem_of_cons, elem_of_nil in Hin. destruct Hin as [|[|]]; done.
      * done.
      * done.
    + assert (Hno : ~ reuse_condition ext force dt image).
      { intros (_ & _ & ?). congruence. }
      split; [|split; [|split]].
      * split; [|done]. intros Hr.
        by destruct (Hnot_reused [EvImageExists image]).
      * split; [done|]. intros _. apply (Henter [EvImageExists image]).
      * done.
      * done.
  - assert (Hno : ~ reuse_condition ext force dt image).
    { intros (Hf & Hr & _). apply (conj Hf) in Hr.
      apply checks_existence_true in Hr. congruence. }
    cbn [fst snd events]. split; [|split; [|split]].
    + split; [|done]. intros Hr. by destruct (Hnot_reused []).
    + split; [done|]. intros _. apply (Henter []).
    + done.
    + done.
Qed.


End BuildBehaviour.

(** ** The test double *)

(** X18: the mock downloader of the tests remembers the arguments of
    the last call to [download] and of no other; before any call both
    getters return [None]. *)
Theorem mock_downloader_records_last_call
    (calls : list (string * Path)) (m : MockDownloader.t) :
  MockDownloader.get_url (MockDownloader.downloads calls m)
  = match last calls with
    | Some call => Some call.1
    | None => MockDownloader.get_url m
    end
  /\ MockDownloader.get_dest_path (MockDownloader.downloads calls m)
     = match last calls with
       | Some call => Some call.2
       | None => MockDownloader.get_dest_path m
       end
  /\ MockDownloader.get_url MockDownloader.init = None
  /\ MockDownloader.get_dest_path MockDownloader.init = None.
Proof.
  unfold MockDownloader.downloads.
  destruct calls as [|call calls _] using rev_ind; [done|].
  rewrite foldl_app, last_snoc. done.
Qed.

(** The call of [test_execute_calls_downloader_with_correct_arguments]. *)
Example mock_downloader_in_the_test :
  let m := MockDownloader.download "www.something.com" "/tmp/test/file.tar.gz"
             MockDownloader.init in
  MockDownloader.get_url m = Some "www.something.com"
  /\ MockDownloader.get_dest_path m = Some "/tmp/test/file.tar.gz".
Proof. split; reflexivity. Qed.

(** ** The further properties at the scenario of the specification *)

Lemma build_independent_of_declaration_order_witness :
  outcome (build Sample.ext Sample.release_3_0 Sample.built_config false)
          (Sample.web_with ["db"; "cache"])
  = outcome (build Sample.ext Sample.release_3_0 Sample.built_config false)
            (Sample.web_with ["cache"; "db"])
  /\ trace_of (build Sample.ext Sample.release_3_0 Sample.built_config false)
              (Sample.web_with ["db"; "cache"])
     = trace_of (build Sample.ext Sample.release_3_0 Sample.built_config false)
                (Sample.web_with ["cache"; "db"]).
Proof.
  apply (build_independent_of_declaration_order Sample.ext Sample.release_3_0
           Sample.built_config false
           (Sample.web_with ["db"; "cache"]) (Sample.web_with ["cache"; "db"]));
    try reflexivity.
  simpl. apply Permutation_swap.
Defined.

Local Ltac scenario_dependency H :=
  apply elem_of_cons in H as [->|H];
  [|apply elem_of_cons in H as [->|H]; [|by apply elem_of_nil in H]].

Lemma identifier_closed_form_witness :
  outcome (_get_image_name RELEASE (version_argument RELEASE "3.0")
             Sample.built_config) Sample.web
  = Ok ("acme" +:+ "/" +:+ "web" +:+ ":" +:+ "3.0" +:+ "_"
        +:+ Py.join "_" (map (dependency_entry Sample.built_config)
                             (Py.sort ["db"; "cache"]))).
Proof.
  apply (identifier_closed_form RELEASE "3.0" Sample.built_config Sample.web).
  intros d Hd. simpl in Hd. scenario_dependency Hd; by eexists.
Defined.

Lemma key_error_names_least_missing_dependency_witness :
  exists d, KeyError "cache" = KeyError d /\ d ∈ ["db"; "cache"] /\
    components Sample.built_config_without_cache !! d = None /\
    forall d', d' ∈ ["db"; "cache"] ->
               components Sample.built_config_without_cache !! d' = None ->
               String.le d d'.
Proof.
  apply (key_error_names_least_missing_dependency RELEASE "3.0"
           Sample.built_config_without_cache Sample.web (KeyError "cache")).
  reflexivity.
Defined.

Lemma changed_dependency_tag_changes_identifier_witness :
  "acme/web:3.0_cache2.0__db1.0_" <> "acme/web:3.0_cache2.1__db1.0_".
Proof.
  apply (changed_dependency_tag_changes_identifier RELEASE (Some "3.0")
           Sample.built_config Failing.built_config_cache_2_1 Sample.web
           "cache" "2.0_" "2.1_").
  - reflexivity.
  - reflexivity.
  - simpl. apply list_elem_of_further, list_elem_of_here.
  - intros x Hx Hne. simpl in Hx. scenario_dependency Hx; [reflexivity|done].
  - reflexivity.
  - reflexivity.
  - discriminate.
  - reflexivity.
  - reflexivity.
Defined.

Lemma dependency_tag_has_no_colon_witness : Py.contains ":" "2.0_" = false.
Proof.
  apply (dependency_tag_has_no_colon Sample.built_config "cache" "2.0_").
  reflexivity.
Defined.

Lemma identifier_tag_suffix_witness :
  tag_suffix "acme/web:3.0_cache2.0__db1.0_"
  = "3.0" +:+ "_"
    +:+ Py.join "_" (map (dependency_entry Sample.built_config)
                         (Py.sort ["db"; "cache"])).
Proof.
  apply (identifier_tag_suffix RELEASE "3.0" Sample.built_config Sample.web
           "acme/web:3.0_cache2.0__db1.0_").
  - reflexivity.
  - reflexivity.
  - intros d Hd. simpl in Hd. scenario_dependency Hd; reflexivity.
Defined.

Lemma identifier_without_dependencies_witness :
  outcome (_get_image_name SNAPSHOT (version_argument SNAPSHOT "~/src/web")
             Sample.built_config) (Sample.web_with [])
  = Ok ("acme" +:+ "/" +:+ "web" +:+ ":" +:+ "snapshot_1556000000" +:+ "_").
Proof.
  apply (identifier_without_dependencies SNAPSHOT "~/src/web"
           Sample.built_config (Sample.web_with [])).
  reflexivity.
Defined.

Lemma existence_check_only_for_unforced_release_witness :
  (forall i,
      EvImageExists i
        ∈ trace_of (build Sample.ext Sample.release_3_0 Sample.built_config
                      true) Sample.web
      <-> i = "acme/web:3.0_cache2.0__db1.0_" /\ true = false /\ RELEASE = RELEASE)
  /\ (true = false -> RELEASE = RELEASE ->
      head (trace_of (build Sample.ext Sample.release_3_0 Sample.built_config
                        true) Sample.web)
      = Some (EvImageExists "acme/web:3.0_cache2.0__db1.0_"))
  /\ Forall (fun e => is_existence_check e = false)
       (tail (trace_of (build Sample.ext Sample.release_3_0
                          Sample.built_config true) Sample.web)).
Proof.
  apply (existence_check_only_for_unforced_release Sample.ext
           Sample.release_3_0 Sample.built_config true Sample.web RELEASE "3.0"
           "acme/web:3.0_cache2.0__db1.0_"); reflexivity.
Defined.

Local Ltac not_reused := intros (_ & _ & Hexists); discriminate Hexists.

Lemma failed_preparation_skips_docker_build_witness :
  outcome (build Sample.ext Sample.release_3_0 Sample.built_config false)
          Failing.web_with_field_1
  = Raise IndexError
  /\ (forall p t,
        EvDockerBuild p t
          ∉ trace_of (build Sample.ext Sample.release_3_0
                        Sample.built_config false) Failing.web_with_field_1)
  /\ last (trace_of (build Sample.ext Sample.release_3_0
                       Sample.built_config false) Failing.web_with_field_1)
     = Some (EvTmpDirExit "/resources/web").
Proof.
  apply (failed_preparation_skips_docker_build Sample.ext
           Sample.release_3_0 Sample.built_config false
           Failing.web_with_field_1 RELEASE
           "3.0" "acme/web:3.0_cache2.0__db1.0_" "/resources/web/tmp"
           IndexError); try reflexivity.
  not_reused.
Defined.

Lemma failed_docker_build_propagates_witness :
  outcome (build Failing.docker Sample.snapshot_web Sample.built_config false)
          Sample.web
  = Raise (CollaboratorError "BuildError").
Proof.
  apply (failed_docker_build_propagates Failing.docker Sample.snapshot_web
           Sample.built_config false Sample.web SNAPSHOT "~/src/web"
           "acme/web:snapshot_1556000000_cache2.0__db1.0_" "/resources/web/tmp"
           (CollaboratorError "BuildError")); try reflexivity.
  intros (_ & Hrelease & _). discriminate Hrelease.
Defined.

Lemma failed_enter_runs_nothing_witness :
  outcome (build Failing.enter Sample.release_3_0 Sample.built_config false)
          Sample.web
  = Raise (CollaboratorError "OSError")
  /\ last (trace_of (build Failing.enter Sample.release_3_0
                       Sample.built_config false) Sample.web)
     = Some (EvTmpDirEnter "/resources/web")
  /\ Forall (fun ev => is_body_effect ev = false)
       (trace_of (build Failing.enter Sample.release_3_0
                    Sample.built_config false) Sample.web)
  /\ (forall dir,
        EvTmpDirExit dir
          ∉ trace_of (build Failing.enter Sample.release_3_0
                        Sample.built_config false) Sample.web).
Proof.
  apply (failed_enter_runs_nothing Failing.enter Sample.release_3_0
           Sample.built_config false Sample.web RELEASE "3.0"
           "acme/web:3.0_cache2.0__db1.0_" (CollaboratorError "OSError"));
    try reflexivity.
  not_reused.
Defined.

Lemma successful_build_has_image_witness :
  (reuse_condition Sample.ext false RELEASE "acme/web:3.0_cache2.0__db1.0_"
   /\ Forall (fun e => is_build_effect e = false)
        (trace_of (build Sample.ext Sample.release_3_0 Sample.built_config
                     false) Sample.web))
  \/ (~ reuse_condition Sample.ext false RELEASE "acme/web:3.0_cache2.0__db1.0_"
      /\ EvDockerBuild "/resources/web" "acme/web:3.0_cache2.0__db1.0_"
         ∈ trace_of (build Sample.ext Sample.release_3_0 Sample.built_config
                       false) Sample.web
      /\ docker_images_build Sample.ext "/resources/web"
           "acme/web:3.0_cache2.0__db1.0_" = Ok tt
      /\ exists arg tmp,
           dist_type_and_arg Sample.ext Sample.release_3_0 = Ok (RELEASE, arg)
           /\ tmp_dir_enter Sample.ext "/resources/web" = Ok tmp
           /\ prepare_outcome Sample.ext Sample.web RELEASE arg tmp = Ok tt).
Proof.
  apply (successful_build_has_image Sample.ext Sample.release_3_0
           Sample.built_config false Sample.web
           (mkComponentConfig RELEASE "3.0" "acme/web:3.0_cache2.0__db1.0_")).
  reflexivity.
Defined.

(** ** Reuse and rebuild at the scenario of the specification *)

Lemma reuse_iff_not_forced_release_existing_witness :
  trace_of (build Sample.ext Sample.release_3_0 Sample.built_config false)
           Sample.web
  = [EvImageExists "acme/web:3.0_cache2.0__db1.0_";
     EvTmpDirEnter "/resources/web";
     EvPrint "Downloading web release version 3.0 from https://example.org/web-3.0.tar.gz.";
     EvWgetDownload "https://example.org/web-3.0.tar.gz"
       "/resources/web/tmp/web.tar.gz";
     EvPrint "";
     EvPrint "Building docker image acme/web:3.0_cache2.0__db1.0_.";
     EvDockerBuild "/resources/web" "acme/web:3.0_cache2.0__db1.0_";
     EvTmpDirExit "/resources/web"]
  /\ outcome (build Sample.ext Sample.release_3_0 Sample.built_config false)
             Sample.web
     = Ok (mkComponentConfig RELEASE "3.0" "acme/web:3.0_cache2.0__db1.0_").
Proof.
  destruct (reuse_iff_not_forced_release_existing Sample.ext
              Sample.release_3_0 Sample.built_config false Sample.web
              RELEASE "3.0" "acme/web:3.0_cache2.0__db1.0_"
              eq_refl eq_refl) as (_ & _ & _ & Hrebuild).
  apply Hrebuild. intros (_ & _ & Hexists). discriminate Hexists.
Defined.



Lemma dependency_tag_after_last_colon_witness :
  outcome (_get_image_name RELEASE (version_argument RELEASE "3.0")
             Failing.built_config_plain_db) Sample.web
  = Ok "acme/web:3.0_cache2.0__dbdb-image"
  /\ suffix_of Failing.built_config_plain_db "cache" = "2.0_"
  /\ suffix_of Failing.built_config_plain_db "db" = "db-image".
Proof.
  destruct (dependency_tag_after_last_colon RELEASE "3.0"
              Failing.built_config_plain_db Sample.web) as [Hid Hsuffix].
  { intros d Hd. simpl in Hd. scenario_dependency Hd; by eexists. }
  split; [exact Hid|]. split.
  - apply (Hsuffix "cache" Sample.cache_config eq_refl) with ".../cache";
      reflexivity.
  - apply (Hsuffix "db" (mkComponentConfig RELEASE "1.0" "db-image") eq_refl).
    reflexivity.
Defined.

(** A URL template with the field [{1}]: [str.format] raises before
    anything is printed or downloaded, inside the handler. *)
Example release_with_unformattable_template :
  outcome (build Sample.ext Sample.release_3_0 Sample.built_config false)
          Failing.web_with_field_1
  = Raise IndexError
  /\ trace_of (build Sample.ext Sample.release_3_0 Sample.built_config false)
              Failing.web_with_field_1
     = [EvImageExists "acme/web:3.0_cache2.0__db1.0_";
        EvTmpDirEnter "/resources/web";
        EvTmpDirExit "/resources/web"].
Proof. split; reflexivity. Qed.
